(** * porter: the region provisioning pipeline of [provision/stack_creator.go]

    A shallow embedding of [stackCreator] and its methods
    ([createUpdateStackForRegion], [uploadServicePayload], [createStack],
    [createTemplate], [mutateTemplate], [s3KeyRoot]) together with the
    properties of the pipeline: content-addressed staging, fail-fast
    sequencing, probe classification and storage-key derivation. *)

From Stdlib Require Import ZArith Lia Strings.Byte Strings.Ascii Strings.String.
From stdpp Require Import base strings list finite gmap pretty.

Local Open Scope Z_scope.

(** ** Go strings and byte slices *)

(** A Go [[]byte] is a list of bytes; a Go [string] is a Rocq string. *)
Abbreviation bytes := (list byte).

Definition byte_to_Z (b : byte) : Z := Z.of_N (Byte.to_N b).

Definition Z_to_byte (z : Z) : byte :=
  match Byte.of_N (Z.to_N (z mod 256)) with
  | Some b => b
  | None => x00
  end.

(** [strings.HasPrefix s sub]. *)
Fixpoint HasPrefix (s sub : string) : bool :=
  match sub, s with
  | EmptyString, _ => true
  | String c sub', String d s' => if Ascii.eqb c d then HasPrefix s' sub' else false
  | String _ _, EmptyString => false
  end.

(** [strings.Contains s substr]: [substr] occurs somewhere within [s]. *)
Fixpoint Contains (s substr : string) : bool :=
  HasPrefix s substr ||
  match s with
  | EmptyString => false
  | String _ s' => Contains s' substr
  end.

(** ** [encoding/hex] *)
Module hex.

(** [const hextable = "0123456789abcdef"] *)
Definition hextable : string := "0123456789abcdef".

Definition digit (n : Z) : ascii :=
  match String.get (Z.to_nat n) hextable with
  | Some c => c
  | None => "0"%char
  end.

(** [EncodeToString]: every byte [v] gives [hextable[v>>4]] and
    [hextable[v&0x0f]]. *)
Fixpoint EncodeToString (src : bytes) : string :=
  match src with
  | [] => EmptyString
  | v :: rest =>
      String (digit (Z.shiftr (byte_to_Z v) 4))
        (String (digit (Z.land (byte_to_Z v) 15)) (EncodeToString rest))
  end.

(** [fromHexChar] on the digits of [hextable]. *)
Definition fromHexChar (c : ascii) : Z :=
  let n := Z.of_nat (Ascii.nat_of_ascii c) in
  if n <? 58 then n - 48 else n - 87.

End hex.

(** ** [crypto/sha256] (FIPS 180-4), on 32-bit words held in [Z] *)
Module sha256.

Definition u32 (x : Z) : Z := x mod 2 ^ 32.

(** [bits.RotateLeft32(x, -n)] *)
Definition rotr (x n : Z) : Z :=
  Z.lor (Z.shiftr x n) (u32 (Z.shiftl x (32 - n))).

(** Reads a run of 8-digit hexadecimal words. *)
Fixpoint words_of_hex (s : string) (digits : nat) (acc : Z) : list Z :=
  match s with
  | EmptyString => []
  | String c s' =>
      let acc' := acc * 16 + hex.fromHexChar c in
      match digits with
      | O => acc' :: words_of_hex s' 7 0
      | S d => words_of_hex s' d acc'
      end
  end.

(** The round constants [_K]. *)
Definition _K : list Z := Eval vm_compute in
  words_of_hex
    ("428a2f9871374491b5c0fbcfe9b5dba53956c25b59f111f1923f82a4ab1c5ed5" +:+
     "d807aa9812835b01243185be550c7dc372be5d7480deb1fe9bdc06a7c19bf174" +:+
     "e49b69c1efbe47860fc19dc6240ca1cc2de92c6f4a7484aa5cb0a9dc76f988da" +:+
     "983e5152a831c66db00327c8bf597fc7c6e00bf3d5a7914706ca635114292967" +:+
     "27b70a852e1b21384d2c6dfc53380d13650a7354766a0abb81c2c92e92722c85" +:+
     "a2bfe8a1a81a664bc24b8b70c76c51a3d192e819d6990624f40e3585106aa070" +:+
     "19a4c1161e376c082748774c34b0bcb5391c0cb34ed8aa4a5b9cca4f682e6ff3" +:+
     "748f82ee78a5636f84c878148cc7020890befffaa4506cebbef9a3f7c67178f2")
    7 0.

(** The chaining value [dig.h]. *)
Record digest : Type := Digest {
  h0 : Z; h1 : Z; h2 : Z; h3 : Z; h4 : Z; h5 : Z; h6 : Z; h7 : Z
}.

(** [init0 .. init7] *)
Definition init : digest :=
  Digest 0x6a09e667 0xbb67ae85 0x3c6ef372 0xa54ff53a
         0x510e527f 0x9b05688c 0x1f83d9ab 0x5be0cd19.

(** [w[i] = uint32(p[j])<<24 | uint32(p[j+1])<<16 | uint32(p[j+2])<<8 | uint32(p[j+3])] *)
Fixpoint load_words (n : nat) (p : list Z) : list Z :=
  match n with
  | O => []
  | S n' =>
      match p with
      | a :: b :: c :: d :: p' =>
          Z.lor (Z.lor (Z.lor (Z.shiftl a 24) (Z.shiftl b 16)) (Z.shiftl c 8)) d
            :: load_words n' p'
      | _ => []
      end
  end.

(** The message schedule, most recent word first: with [w[i-1]] at the
    head, [w[i-2]], [w[i-7]], [w[i-15]] and [w[i-16]] sit at offsets 1,
    6, 14 and 15. *)
Fixpoint schedule (n : nat) (rw : list Z) : list Z :=
  match n with
  | O => rw
  | S n' =>
      let v1 := nth 1 rw 0 in
      let t1 := Z.lxor (Z.lxor (rotr v1 17) (rotr v1 19)) (Z.shiftr v1 10) in
      let v2 := nth 14 rw 0 in
      let t2 := Z.lxor (Z.lxor (rotr v2 7) (rotr v2 18)) (Z.shiftr v2 3) in
      schedule n' (u32 (t1 + nth 6 rw 0 + t2 + nth 15 rw 0) :: rw)
  end.

(** One of the 64 rounds on the working variables [a .. h]. *)
Definition round (v : digest) (kw : Z * Z) : digest :=
  let '(Digest a b c d e f g h) := v in
  let t1 := h + Z.lxor (Z.lxor (rotr e 6) (rotr e 11)) (rotr e 25)
              + Z.lxor (Z.land e f) (Z.land (Z.lxor e 0xffffffff) g)
              + fst kw + snd kw in
  let t2 := Z.lxor (Z.lxor (rotr a 2) (rotr a 13)) (rotr a 22)
              + Z.lxor (Z.lxor (Z.land a b) (Z.land a c)) (Z.land b c) in
  Digest (u32 (t1 + t2)) a b c (u32 (d + t1)) e f g.

(** [blockGeneric] on one 64-byte chunk. *)
Definition block (dig : digest) (p : list Z) : digest :=
  let w := rev (schedule 48 (rev (load_words 16 p))) in
  let v := fold_left round (combine _K w) dig in
  Digest (u32 (h0 dig + h0 v)) (u32 (h1 dig + h1 v))
         (u32 (h2 dig + h2 v)) (u32 (h3 dig + h3 v))
         (u32 (h4 dig + h4 v)) (u32 (h5 dig + h5 v))
         (u32 (h6 dig + h6 v)) (u32 (h7 dig + h7 v)).

Fixpoint blocks (n : nat) (dig : digest) (p : list Z) : digest :=
  match n with
  | O => dig
  | S n' => blocks n' (block dig (firstn 64 p)) (skipn 64 p)
  end.

(** Big-endian bytes of a [width]-byte unsigned integer. *)
Fixpoint be_bytes (width : nat) (x : Z) : list Z :=
  match width with
  | O => []
  | S w' => Z.land (Z.shiftr x (8 * Z.of_nat w')) 255 :: be_bytes w' x
  end.

(** [checkSum]'s padding: [0x80], zeros up to 56 mod 64, then the length
    in bits as 8 big-endian bytes. *)
Definition pad (len : Z) : list Z :=
  128 :: repeat 0 (Z.to_nat ((55 - len) mod 64)) ++ be_bytes 8 ((len * 8) mod 2 ^ 64).

(** [sha256.Sum256(data)]: the 32-byte checksum. *)
Definition Sum256 (data : bytes) : bytes :=
  let p := map byte_to_Z data ++ pad (Z.of_nat (length data)) in
  let d := blocks (Nat.div (length p) 64) init p in
  map Z_to_byte
    (be_bytes 4 (h0 d) ++ be_bytes 4 (h1 d) ++ be_bytes 4 (h2 d) ++
     be_bytes 4 (h3 d) ++ be_bytes 4 (h4 d) ++ be_bytes 4 (h5 d) ++
     be_bytes 4 (h6 d) ++ be_bytes 4 (h7 d)).

End sha256.

Definition bytes_of_string (s : string) : bytes := list_byte_of_string s.

(** ** Results of Go calls *)

(** A Go [error], observed through [err.Error()] as the source does. *)
Definition error : Type := string.

(** A [(T, error)] pair: the value when [err == nil], the error otherwise. *)
Definition result (A : Type) : Type := (A + error)%type.

(** A Go call either returns or panics. *)
Inductive Outcome (A : Type) : Type :=
  | Returned (a : A)
  | Panicked (msg : string).
Arguments Returned {A} a.
Arguments Panicked {A} msg.

(** ** The records of [conf], [s3], [s3manager] and [provision_state]
    (the fields the pipeline reads or writes) *)

Module Config.
Record t : Type := Make { ServiceName : string; ServiceVersion : string }.
End Config.

Module Environment.
(** [GetStackDefinitionPath(region)] is a method of [conf.Environment]
    whose body is outside this file; it is carried as a field. *)
Record t : Type := Make {
  Name : string;
  GetStackDefinitionPath : string -> result string
}.
End Environment.

Module Region.
Record t : Type := Make {
  Name : string;
  S3Bucket : string;
  SSEKMSKeyId : option string  (* [*string], [None] for [nil] *)
}.
End Region.

Module HeadObjectInput.
Record t : Type := Make { Bucket : string; Key : string }.
End HeadObjectInput.

Module HeadObjectOutput.
Record t : Type := Make { ContentLength : option Z (* [*int64] *) }.
End HeadObjectOutput.

Module UploadInput.
Record t : Type := Make {
  Bucket : string;
  Key : string;
  Body : bytes;
  ContentType : option string;
  ContentEncoding : option string;
  StorageClass : option string;
  SSEKMSKeyId : option string;
  ServerSideEncryption : option string
}.
End UploadInput.

Module CfnApiInput.
Record t : Type := Make {
  Environment : string;
  Region : string;
  SecretsKey : string;
  SecretsLoc : string;
  TemplateUrl : string
}.
End CfnApiInput.

Module provision_state.
(** [provision_state.Region]: the caller-owned record. [Rest] stands for
    the fields other than [StackId], which this file never touches. *)
Record Region (Rest : Type) : Type := MakeRegion {
  StackId : string;
  rest : Rest
}.
Arguments MakeRegion {Rest} _ _.
Arguments StackId {Rest} _.
Arguments rest {Rest} _.
End provision_state.

(** ** [cfn.Template] *)
Module cfn.

(** Modelled from the spec: the declaration of [cfn.Template] and
    [cfn.NewTemplate] are outside this file. The spec's data model has a
    template as a description string and a mapping of resource name to
    resource definition, created empty; a resource definition is kept as
    its serialized text. *)
Record Template : Type := MakeTemplate {
  Description : string;
  Resources : gmap string string
}.

Definition NewTemplate : Template := MakeTemplate "" ∅.

End cfn.

(** ** [constants] *)

(** The values of [constants.PayloadPath],
    [constants.CloudFormationTemplatePath] and [constants.Version] are
    declared outside this file. *)
Class Constants : Type := {
  PayloadPath : string;
  CloudFormationTemplatePath : string;
  Version : string
}.

(** [const ( s3KeyOptTemplate = 1 << iota; s3KeyOptDeployment )] *)
Definition s3KeyOptTemplate : Z := Z.shiftl 1 0.
Definition s3KeyOptDeployment : Z := Z.shiftl 1 1.

(** ** The receiver *)

(** [stackCreator] over a world [W] (the host file system, the S3 buckets,
    CloudFormation). [log] is rendered by the trace below; [roleSession]
    and [templateTransforms] are only handed to calls whose behaviour is a
    parameter of this development. *)
Record stackCreator (W : Type) : Type := MakeStackCreator {
  config : Config.t;
  environment : Environment.t;
  region : Region.t;
  servicePayloadKey : string;
  servicePayloadChecksum : string;
  secretsKey : string;
  secretsLocation : string;
  cfnAPI : CfnApiInput.t -> W -> (string * bool) * W
}.
Arguments MakeStackCreator {W}.
Arguments config {W}.
Arguments environment {W}.
Arguments region {W}.
Arguments servicePayloadKey {W}.
Arguments servicePayloadChecksum {W}.
Arguments secretsKey {W}.
Arguments secretsLocation {W}.
Arguments cfnAPI {W}.

Definition set_servicePayloadKey {W} (k : string) (r : stackCreator W) : stackCreator W :=
  MakeStackCreator (config r) (environment r) (region r) k
    (servicePayloadChecksum r) (secretsKey r) (secretsLocation r) (cfnAPI r).

Definition set_servicePayloadChecksum {W} (c : string) (r : stackCreator W) : stackCreator W :=
  MakeStackCreator (config r) (environment r) (region r) (servicePayloadKey r)
    c (secretsKey r) (secretsLocation r) (cfnAPI r).

(** ** External calls *)

(** The host: local files, the [rm] process and the Go runtime. *)
Class Host (W : Type) : Type := {
  ReadFile : string -> W -> result bytes * W;
  WriteFile : string -> bytes -> W -> option error * W;
(** [os.Open] followed by reading the stream: the handle is the content. *)
Open : string -> W -> result bytes * W;
(** [exec.Command("rm", "-rf", path).Run()], its error dropped. *)
rm_rf : string -> W -> W;
(** [runtime.GOMAXPROCS(-1)] *)
GOMAXPROCS : Z
}.

(** The S3 client and the upload manager. *)
Class S3API (W : Type) : Type := {
  HeadObject : HeadObjectInput.t -> W -> result HeadObjectOutput.t * W;
(** [Upload]'s output is dropped by every caller: only [err] is kept. *)
Upload : UploadInput.t -> W -> option error * W
}.

(** [encoding/json] on templates and the resource expansion of [cfn]. *)
Class TemplateCodec : Type := {
  Decode : bytes -> cfn.Template -> result cfn.Template;
  Marshal : cfn.Template -> result bytes;
  ParseResources : cfn.Template -> cfn.Template
}.

(** The methods of [stackCreator] defined in other files of the package.
    They take the receiver by pointer, so each may change it, and the
    template is changed in place. *)
Class Collaborators (W : Type) : Type := {
  uploadSecrets : string -> stackCreator W -> W -> bool * stackCreator W * W;
  ensureResources : cfn.Template -> stackCreator W -> W -> bool * cfn.Template * stackCreator W * W;
  mapResources : cfn.Template -> stackCreator W -> W -> bool * cfn.Template * stackCreator W * W
}.

(** ** The trace of a run *)

Inductive Level : Type := LvlInfo | LvlError.

Inductive LogValue : Type :=
  | LStr (s : string)
  | LInt (n : Z).

Inductive Event : Type :=
  | EvLog (lvl : Level) (msg : string) (ctx : list (string * LogValue))
  | EvReadFile (path : string)
  | EvWriteFile (path : string) (data : bytes)
  | EvOpen (path : string)
  | EvRm (path : string)
  | EvHeadObject (input : HeadObjectInput.t)
  | EvUpload (input : UploadInput.t)
  | EvUploadSecrets (checksum : string)
  | EvGetStackDefinitionPath (region : string)
  | EvDecode (doc : bytes)
  | EvParseResources (template : cfn.Template)
  | EvEnsureResources (template : cfn.Template)
  | EvMapResources (template : cfn.Template)
  | EvMarshal (template : cfn.Template)
  | EvCfnAPI (params : CfnApiInput.t).

Definition is_upload (e : Event) : bool :=
  match e with EvUpload _ => true | _ => false end.

(** ** The monad of the methods *)

(** A method runs from a state (the receiver's fields and the world) to
    an outcome, the state it leaves and the events it performed, in
    order. *)
Record State (W : Type) : Type := MakeState {
  recv : stackCreator W;
  world : W
}.
Arguments MakeState {W}.
Arguments recv {W}.
Arguments world {W}.

Record Run (W A : Type) : Type := MakeRun {
  outcome : Outcome A;
  final : State W;
  events : list Event
}.
Arguments MakeRun {W A}.
Arguments outcome {W A}.
Arguments final {W A}.
Arguments events {W A}.

Definition M (W A : Type) : Type := State W -> Run W A.

Definition ret {W A} (a : A) : M W A := fun s => MakeRun (Returned a) s [].

Definition bind {W A B} (m : M W A) (k : A -> M W B) : M W B :=
  fun s =>
    match m s with
    | MakeRun (Returned a) s' evs =>
        match k a s' with
        | MakeRun o s'' evs' => MakeRun o s'' (evs ++ evs')
        end
    | MakeRun (Panicked msg) s' evs => MakeRun (Panicked msg) s' evs
    end.

Declare Scope go_scope.
Delimit Scope go_scope with go.
Notation "x <- m ; k" := (bind m (fun x => k))
  (at level 100, m at next level, right associativity) : go_scope.
Notation "m ;; k" := (bind m (fun _ => k))
  (at level 100, right associativity) : go_scope.

Definition panic {W A} (msg : string) : M W A := fun s => MakeRun (Panicked msg) s [].

Definition of_outcome {W A} (o : Outcome A) : M W A := fun s => MakeRun o s [].

(** [defer f()]: [f] runs when the body returns or panics. *)
Definition defer {W A} (f : M W unit) (body : M W A) : M W A :=
  fun s =>
    match body s with
    | MakeRun o s' evs =>
        match f s' with
        | MakeRun _ s'' evs' => MakeRun o s'' (evs ++ evs')
        end
    end.

Definition emit {W} (e : Event) : M W unit := fun s => MakeRun (Returned tt) s [e].

Definition get_recv {W} : M W (stackCreator W) := fun s => MakeRun (Returned (recv s)) s [].

Definition modify_recv {W} (f : stackCreator W -> stackCreator W) : M W unit :=
  fun s => MakeRun (Returned tt) (MakeState (f (recv s)) (world s)) [].

(** A call into the world. *)
Definition call {W A} (f : W -> A * W) : M W A :=
  fun s => MakeRun (Returned (f (world s)).1) (MakeState (recv s) (f (world s)).2) [].

(** A call of a method of the receiver defined in another file. *)
Definition call_method {W A} (f : stackCreator W -> W -> A * stackCreator W * W) : M W A :=
  fun s =>
    let x := f (recv s) (world s) in
    MakeRun (Returned x.1.1) (MakeState x.1.2 x.2) [].

Definition log {W} (lvl : Level) (msg : string) (ctx : list (string * LogValue)) : M W unit :=
  emit (EvLog lvl msg ctx).

(** ** The methods of [stackCreator] *)

Section StackCreator.

Context {W : Type}.
Context `{!Constants} `{!Host W} `{!S3API W} `{!TemplateCodec} `{!Collaborators W}.

Local Open Scope go_scope.

(** [func (recv *stackCreator) s3KeyRoot(prefixOpt int) string]: it reads
    the receiver only. *)
Definition s3KeyRoot (r : stackCreator W) (prefixOpt : Z) : Outcome string :=
  let finish (prefix : string) :=
    Returned (prefix +:+ "/" +:+ Config.ServiceName (config r) +:+ "/" +:+
              Environment.Name (environment r) +:+ "/" +:+
              Config.ServiceVersion (config r)) in
  if Z.land prefixOpt s3KeyOptTemplate =? s3KeyOptTemplate then
    finish "porter-template"
  else if Z.land prefixOpt s3KeyOptDeployment =? s3KeyOptDeployment then
    finish "porter-deployment"
  else
    Panicked ("invalid option " +:+ pretty prefixOpt).

Definition call_s3KeyRoot (prefixOpt : Z) : M W string :=
  r <- get_recv; of_outcome (s3KeyRoot r prefixOpt).

(** [func (recv *stackCreator) uploadServicePayload() (checksum string, success bool)] *)
Definition uploadServicePayload : M W (string * bool) :=
  defer (emit (EvRm PayloadPath);; call (fun w => (tt, rm_rf PayloadPath w))) (
    emit (EvReadFile PayloadPath);;
    read <- call (ReadFile PayloadPath);
    match read with
    | inr err =>
        log LvlError "ReadFile payload" [("Error", LStr err)];;
        ret ("", false)
    | inl payloadBytes =>
        let checksumArray := sha256.Sum256 payloadBytes in
        let checksum := hex.EncodeToString checksumArray in
        modify_recv (set_servicePayloadChecksum checksum);;
        root <- call_s3KeyRoot s3KeyOptDeployment;
        modify_recv (set_servicePayloadKey (root +:+ "/" +:+ checksum +:+ ".tar"));;
        r <- get_recv;
        let headObjectInput :=
          HeadObjectInput.Make (Region.S3Bucket (region r)) (servicePayloadKey r) in
        (* lines 131-154, reached from both branches of the probe *)
        let upload : M W (string * bool) :=
          let uploadInput :=
            UploadInput.Make (Region.S3Bucket (region r)) (servicePayloadKey r)
              payloadBytes (Some "application/x-tar") (Some "gzip")
              (Some "STANDARD_IA") None None in
          log LvlInfo "Uploading service payload"
            [("S3key", LStr (servicePayloadKey r)); ("Concurrency", LInt GOMAXPROCS)];;
          emit (EvUpload uploadInput);;
          uerr <- call (Upload uploadInput);
          match uerr with
          | Some err =>
              log LvlError "Upload failure" [("Error", LStr err)];;
              ret (checksum, false)
          | None => ret (checksum, true)
          end in
        emit (EvHeadObject headObjectInput);;
        probe <- call (HeadObject headObjectInput);
        match probe with
        | inl headObjectOutput =>
            match HeadObjectOutput.ContentLength headObjectOutput with
            | Some n =>
                if 0 <? n then
                  log LvlInfo "Service payload exists" [("S3key", LStr (servicePayloadKey r))];;
                  ret (checksum, true)
                else upload
            | None => upload
            end
        | inr err =>
            if negb (Contains err "404") then
              log LvlError "HeadObject" [("Error", LStr err)];;
              (if Contains err "403" then
                 log LvlError "s3:GetObject and s3:ListBucket are needed for this operation to work" []
               else ret tt);;
              ret (checksum, false)
            else upload
        end
    end).

(** [func (recv *stackCreator) mutateTemplate(template *cfn.Template) (success bool)];
    the template changed in place is returned with the result. *)
Definition mutateTemplate (template : cfn.Template) : M W (bool * cfn.Template) :=
  r <- get_recv;
  let template :=
    cfn.MakeTemplate
      (Config.ServiceName (config r) +:+ " (powered by porter " +:+ Version +:+ ")")
      (cfn.Resources template) in
  emit (EvEnsureResources template);;
  ensured <- call_method (ensureResources template);
  let success := ensured.1 in
  let template := ensured.2 in
  if negb success then ret (success, template)
  else
    emit (EvMapResources template);;
    mapped <- call_method (mapResources template);
    let success := mapped.1 in
    let template := mapped.2 in
    if negb success then ret (success, template)
    else ret (true, template).

(** [func (recv *stackCreator) createTemplate() (templateBytes []byte, success bool)] *)
Definition createTemplate : M W (bytes * bool) :=
  let template := cfn.NewTemplate in
  r <- get_recv;
  emit (EvGetStackDefinitionPath (Region.Name (region r)));;
  match Environment.GetStackDefinitionPath (environment r) (Region.Name (region r)) with
  | inr err =>
      log LvlError "GetStackDefinitionPath" [("Error", LStr err)];;
      ret ([], false)
  | inl stackDefinitionPath =>
      (* lines 249-263 *)
      let assemble (template : cfn.Template) : M W (bytes * bool) :=
        emit (EvParseResources template);;
        let template := ParseResources template in
        mutated <- mutateTemplate template;
        let ok := mutated.1 in
        let template := mutated.2 in
        if negb ok then ret ([], false)
        else
          emit (EvMarshal template);;
          match Marshal template with
          | inr err =>
              log LvlError "json.Marshal" [("Error", LStr err)];;
              ret ([], false)
          | inl templateBytes => ret (templateBytes, true)
          end in
      if negb (String.eqb stackDefinitionPath "") then
        log LvlInfo "Using custom stack definition" [("Path", LStr stackDefinitionPath)];;
        emit (EvOpen stackDefinitionPath);;
        opened <- call (Open stackDefinitionPath);
        match opened with
        | inr err =>
            log LvlError "os.Open" [("Path", LStr stackDefinitionPath); ("Error", LStr err)];;
            ret ([], false)
        | inl stackFile =>
            emit (EvDecode stackFile);;
            match Decode stackFile template with
            | inr err =>
                log LvlError "json.Decode" [("Path", LStr stackDefinitionPath); ("Error", LStr err)];;
                ret ([], false)
            | inl template => assemble template
            end
        end
      else assemble template
  end.

(** [func (recv *stackCreator) createStack() (stackId string, success bool)] *)
Definition createStack : M W (string * bool) :=
  created <- createTemplate;
  let templateBytes := created.1 in
  let creationSuccess := created.2 in
  if negb creationSuccess then ret ("", false)
  else
    emit (EvWriteFile CloudFormationTemplatePath templateBytes);;
    werr <- call (WriteFile CloudFormationTemplatePath templateBytes);
    match werr with
    | Some err =>
        log LvlError ("Unable to write " +:+ CloudFormationTemplatePath +:+ " file")
          [("Error", LStr err)];;
        ret ("", false)
    | None =>
        let checksumArray := sha256.Sum256 templateBytes in
        let checksum := hex.EncodeToString checksumArray in
        root <- call_s3KeyRoot s3KeyOptTemplate;
        let templateS3Key := root +:+ "/" +:+ checksum in
        r <- get_recv;
        let uploadInput :=
          UploadInput.Make (Region.S3Bucket (region r)) templateS3Key templateBytes
            (Some "application/json") None None None None in
        let uploadInput :=
          match Region.SSEKMSKeyId (region r) with
          | Some keyId =>
              UploadInput.Make (UploadInput.Bucket uploadInput) (UploadInput.Key uploadInput)
                (UploadInput.Body uploadInput) (UploadInput.ContentType uploadInput)
                (UploadInput.ContentEncoding uploadInput) (UploadInput.StorageClass uploadInput)
                (Some keyId) (Some "aws:kms")
          | None => uploadInput
          end in
        log LvlInfo "Uploading CloudFormation template"
          [("S3bucket", LStr (Region.S3Bucket (region r))); ("S3key", LStr templateS3Key);
           ("Concurrency", LInt GOMAXPROCS)];;
        emit (EvUpload uploadInput);;
        uerr <- call (Upload uploadInput);
        match uerr with
        | Some err =>
            log LvlError "Upload failure" [("Error", LStr err)];;
            ret ("", false)
        | None =>
            let templateUrl :=
              "https://s3.amazonaws.com/" +:+ Region.S3Bucket (region r) +:+ "/" +:+ templateS3Key in
            let params :=
              CfnApiInput.Make (Environment.Name (environment r)) (Region.Name (region r))
                (secretsKey r) (secretsLocation r) templateUrl in
            emit (EvCfnAPI params);;
            call (cfnAPI r params)
        end
    end.

(** [func (recv *stackCreator) createUpdateStackForRegion(regionState *provision_state.Region) bool];
    the caller-owned record is returned with the result. *)
Definition createUpdateStackForRegion {Rest : Type}
    (regionState : provision_state.Region Rest) : M W (bool * provision_state.Region Rest) :=
  staged <- uploadServicePayload;
  let checksum := staged.1 in
  let success := staged.2 in
  if negb success then ret (false, regionState)
  else
    emit (EvUploadSecrets checksum);;
    secrets <- call_method (uploadSecrets checksum);
    if negb secrets then ret (false, regionState)
    else
      created <- createStack;
      let stackId := created.1 in
      let success := created.2 in
      if negb success then ret (false, regionState)
      else
        let regionState := provision_state.MakeRegion stackId (provision_state.rest regionState) in
        ret (true, regionState).

End StackCreator.

(** ** A concrete world: local files and S3 as stores, with injected faults *)
Module Store.

(** [objects] maps (bucket, key) to the stored body. A fault, when set,
    makes the next call of that kind fail with the given error. *)
Record World : Type := MakeWorld {
  files : gmap string bytes;
  objects : gmap (string * string) bytes;
  head_fault : option error;
  upload_fault : option error;
  write_fault : option error
}.

Definition set_files (f : gmap string bytes) (w : World) : World :=
  MakeWorld f (objects w) (head_fault w) (upload_fault w) (write_fault w).

Definition set_objects (o : gmap (string * string) bytes) (w : World) : World :=
  MakeWorld (files w) o (head_fault w) (upload_fault w) (write_fault w).

Definition not_found : error := "NotFound: Not Found, status code: 404".

Definition read (path : string) (w : World) : result bytes * World :=
  match files w !! path with
  | Some data => (inl data, w)
  | None => (inr ("open " +:+ path +:+ ": no such file or directory"), w)
  end.

#[global] Instance host : Host World := {|
  ReadFile := read;
  WriteFile path data w :=
    match write_fault w with
    | Some err => (Some err, w)
    | None => (None, set_files (<[path := data]> (files w)) w)
    end;
  Open := read;
  rm_rf path w := set_files (delete path (files w)) w;
  GOMAXPROCS := 4
|}.

#[global] Instance s3 : S3API World := {|
  HeadObject input w :=
    match head_fault w with
    | Some err => (inr err, w)
    | None =>
        match objects w !! (HeadObjectInput.Bucket input, HeadObjectInput.Key input) with
        | Some body => (inl (HeadObjectOutput.Make (Some (Z.of_nat (length body)))), w)
        | None => (inr not_found, w)
        end
    end;
  Upload input w :=
    match upload_fault w with
    | Some err => (Some err, w)
    | None =>
        (None,
         set_objects
           (<[(UploadInput.Bucket input, UploadInput.Key input) := UploadInput.Body input]>
              (objects w)) w)
    end
|}.

End Store.

(** ** Vocabulary of the properties *)

Section Vocabulary.

Context {W : Type}.
Context `{!Constants} `{!Host W} `{!S3API W} `{!TemplateCodec} `{!Collaborators W}.

(** The storage key of lines 106-109, following the spec's key scheme
    [porter-deployment/<serviceName>/<environmentName>/<serviceVersion>/<digest>.tar]. *)
Definition deployment_key (serviceName environmentName serviceVersion : string)
    (b : bytes) : string :=
  "porter-deployment/" +:+ serviceName +:+ "/" +:+ environmentName +:+ "/" +:+
  serviceVersion +:+ "/" +:+ hex.EncodeToString (sha256.Sum256 b) +:+ ".tar".

Definition key_of (r : stackCreator W) (b : bytes) : string :=
  deployment_key (Config.ServiceName (config r)) (Environment.Name (environment r))
    (Config.ServiceVersion (config r)) b.

(** The receiver once the digest and the key are recorded. *)
Definition staged_recv (r : stackCreator W) (b : bytes) : stackCreator W :=
  set_servicePayloadKey (key_of r b)
    (set_servicePayloadChecksum (hex.EncodeToString (sha256.Sum256 b)) r).

Definition probe_input (r : stackCreator W) (b : bytes) : HeadObjectInput.t :=
  HeadObjectInput.Make (Region.S3Bucket (region r)) (key_of r b).

Definition payload_upload_input (r : stackCreator W) (b : bytes) : UploadInput.t :=
  UploadInput.Make (Region.S3Bucket (region r)) (key_of r b) b
    (Some "application/x-tar") (Some "gzip") (Some "STANDARD_IA") None None.

(** What lines 116-129 decide from the probe. *)
Inductive Verdict : Type :=
  | AlreadyStaged
  | ProceedToUpload
  | ProbeFailed (err : error).

Definition classify (probe : result HeadObjectOutput.t) : Verdict :=
  match probe with
  | inl out =>
      match HeadObjectOutput.ContentLength out with
      | Some n => if 0 <? n then AlreadyStaged else ProceedToUpload
      | None => ProceedToUpload
      end
  | inr err => if Contains err "404" then ProceedToUpload else ProbeFailed err
  end.

(** The description written at line 268. *)
Definition described (r : stackCreator W) (template : cfn.Template) : cfn.Template :=
  cfn.MakeTemplate
    (Config.ServiceName (config r) +:+ " (powered by porter " +:+ Version +:+ ")")
    (cfn.Resources template).

(** Line 175: the key of the serialized template. *)
Definition template_key (r : stackCreator W) (templateBytes : bytes) : string :=
  ("porter-template" +:+ "/" +:+ Config.ServiceName (config r) +:+ "/" +:+
   Environment.Name (environment r) +:+ "/" +:+ Config.ServiceVersion (config r)) +:+
  "/" +:+ hex.EncodeToString (sha256.Sum256 templateBytes).

(** Lines 177-187: the upload of the serialized template. *)
Definition template_upload_input (r : stackCreator W) (templateBytes : bytes) : UploadInput.t :=
  UploadInput.Make (Region.S3Bucket (region r)) (template_key r templateBytes) templateBytes
    (Some "application/json") None None
    (Region.SSEKMSKeyId (region r))
    (match Region.SSEKMSKeyId (region r) with
     | Some _ => Some "aws:kms"
     | None => None
     end).

(** Lines 203-212: the input of the dispatch. *)
Definition dispatch_params (r : stackCreator W) (templateBytes : bytes) : CfnApiInput.t :=
  CfnApiInput.Make (Environment.Name (environment r)) (Region.Name (region r))
    (secretsKey r) (secretsLocation r)
    ("https://s3.amazonaws.com/" +:+ Region.S3Bucket (region r) +:+ "/" +:+
     template_key r templateBytes).

Definition uploading_template (r : stackCreator W) (templateBytes : bytes) : Event :=
  EvLog LvlInfo "Uploading CloudFormation template"
    [("S3bucket", LStr (Region.S3Bucket (region r)));
     ("S3key", LStr (template_key r templateBytes));
     ("Concurrency", LInt GOMAXPROCS)].

(** The state in which [createStack] starts, after the secrets stage. *)
Definition after_secrets (staging : Run W (string * bool)) (checksum : string) : State W :=
  let secrets := uploadSecrets checksum (recv (final staging)) (world (final staging)) in
  MakeState secrets.1.2 secrets.2.

End Vocabulary.

Definition lower_hex_char (c : ascii) : bool :=
  existsb (Ascii.eqb c) (list_ascii_of_string hex.hextable).

Fixpoint lower_hex (s : string) : bool :=
  match s with
  | EmptyString => true
  | String c s' => lower_hex_char c && lower_hex s'
  end.

(** The success flag of a [(value, success)] result. *)
Definition succeeded {A} (o : Outcome (A * bool)) : bool :=
  match o with
  | Returned (_, ok) => ok
  | Panicked _ => false
  end.

Definition uploads (evs : list Event) : list Event := List.filter is_upload evs.

(** ** Concrete receivers and collaborators *)
Module Examples.

#[global] Instance constants : Constants := {|
  PayloadPath := ".porter-tmp/payload.tar";
  CloudFormationTemplatePath := ".porter-tmp/CloudFormationTemplate.json";
  Version := "v0"
|}.

Definition creator (name version env : string) (path : result string)
    (kms : option string) : stackCreator Store.World :=
  MakeStackCreator (Config.Make name version)
    (Environment.Make env (fun _ => path))
    (Region.Make "us-west-2" "bucket" kms)
    "" "" "" ""
    (fun _ w => (("stack-123", true), w)).

(** The service of the spec's scenario. *)
Definition svc : stackCreator Store.World := creator "svc" "1.0" "prod" (inl "") None.

Definition empty_world : Store.World := Store.MakeWorld ∅ ∅ None None None.

Definition with_payload (b : bytes) : Store.World :=
  Store.MakeWorld {[ PayloadPath := b ]} ∅ None None None.

(** A codec that keeps the description only. *)
#[global] Instance codec : TemplateCodec := {|
  Decode doc t :=
    match doc with
    | [] => inr "unexpected end of JSON input"
    | _ => inl (cfn.MakeTemplate (string_of_list_byte doc) (cfn.Resources t))
    end;
  Marshal t := inl (list_byte_of_string (cfn.Description t));
  ParseResources t := t
|}.

(** Collaborators with fixed verdicts. *)
Definition collaborators (secrets ensure map : bool) : Collaborators Store.World := {|
  uploadSecrets _ r w := (secrets, r, w);
  ensureResources t r w := (ensure, t, r, w);
  mapResources t r w := (map, t, r, w)
|}.

End Examples.

(** Bytes are a finite type with decidable equality. *)
#[global] Instance byte_eq_dec : EqDecision byte.
Proof.
  intros x y. destruct (Byte.eqb x y) eqn:E.
  - left. apply Byte.byte_dec_bl, E.
  - right. apply Byte.eqb_false, E.
Defined.

Definition all_bytes : list byte := omap Byte.of_nat (seq 0 256).

#[global] Instance byte_finite : Finite byte.
Proof.
  refine {| enum := all_bytes |}.
  - apply (bool_decide_unpack _). vm_compute. exact I.
  - intros x. destruct x; apply (bool_decide_unpack _); vm_compute; exact I.
Defined.

(** [sha256.Sum256] from the 33-byte inputs to the 32-byte digests. *)
Definition digest_of (x : { l : bytes | length l = 33%nat }) :
    { l : bytes | length l = 32%nat } :=
  exist _ (sha256.Sum256 (proj1_sig x)) eq_refl.

Fixpoint no_slash (s : string) : bool :=
  match s with
  | EmptyString => true
  | String c s' => negb (Ascii.eqb c "/") && no_slash s'
  end.

(** The source's test [prefixOpt&flag == flag]. *)
Definition selects (prefixOpt flag : Z) : bool := Z.land prefixOpt flag =? flag.

(** The S3 coordinates of the payload of [r]. *)
Definition object_of (r : stackCreator Store.World) (b : bytes) : string * string :=
  (Region.S3Bucket (region r), key_of r b).

(** The world of a second run: the payload file holds [b] again, the
    buckets are as the first run left them, and the probe is served. *)
Definition restaged `{!Constants} (b : bytes) (w1 w2 : Store.World) : Prop :=
  Store.files w2 !! PayloadPath = Some b /\
  Store.objects w2 = Store.objects w1 /\
  Store.head_fault w2 = None.

(** What C1 says of the second of two calls on the bytes [b]. *)
Definition second_call_reuses `{!Constants} (b : bytes) (s : State Store.World)
    (w2 : Store.World) : Prop :=
  let first := uploadServicePayload s in
  let second := uploadServicePayload (MakeState (recv (final first)) w2) in
  (exists n, (HeadObject (probe_input (recv s) b) w2).1 =
             inl (HeadObjectOutput.Make (Some n)) /\ 0 < n) /\
  In (EvHeadObject (probe_input (recv s) b)) (events second) /\
  outcome second = outcome first /\
  outcome second = Returned (hex.EncodeToString (sha256.Sum256 b), true) /\
  servicePayloadKey (recv (final second)) = servicePayloadKey (recv (final first)) /\
  uploads (events second) = [] /\
  (length (uploads (events first ++ events second)) <= 1)%nat /\
  (Store.objects (world s) !! object_of (recv s) b = None ->
   length (uploads (events first ++ events second)) = 1%nat).

Definition idempotent_staging (b : bytes) : Prop :=
  forall (C : Constants) (s : State Store.World) (w2 : Store.World),
    Store.files (world s) !! PayloadPath = Some b ->
    succeeded (outcome (uploadServicePayload s)) = true ->
    restaged b (world (final (uploadServicePayload s))) w2 ->
    second_call_reuses b s w2.

Definition permissions_hint : Event :=
  EvLog LvlError "s3:GetObject and s3:ListBucket are needed for this operation to work" [].

Definition is_map_resources (e : Event) : bool :=
  match e with EvMapResources _ => true | _ => false end.

(** Events of reading the override document. *)
Definition reads_override (e : Event) : bool :=
  match e with EvOpen _ | EvDecode _ => true | _ => false end.

(** Events that reach outside the host's template work: uploads, the
    local mirror and the dispatch. *)
Definition leaves_assembly (e : Event) : bool :=
  match e with
  | EvUpload _ | EvWriteFile _ _ | EvCfnAPI _ | EvHeadObject _ => true
  | _ => false
  end.

Definition is_dispatch (e : Event) : bool :=
  match e with EvCfnAPI _ => true | _ => false end.

(** Events of the stages that follow artifact staging. *)
Definition after_staging (e : Event) : bool :=
  match e with
  | EvUploadSecrets _ | EvGetStackDefinitionPath _ | EvOpen _ | EvDecode _
  | EvParseResources _ | EvEnsureResources _ | EvMapResources _ | EvMarshal _
  | EvWriteFile _ _ | EvCfnAPI _ => true
  | _ => false
  end.

Definition is_rm (e : Event) : bool :=
  match e with EvRm _ => true | _ => false end.

Definition is_probe (e : Event) : bool :=
  match e with EvHeadObject _ => true | _ => false end.

(** Events of the template assembly itself. *)
Definition assembly_event (e : Event) : bool :=
  match e with
  | EvLog _ _ _ | EvGetStackDefinitionPath _ | EvOpen _ | EvDecode _
  | EvParseResources _ | EvEnsureResources _ | EvMapResources _ | EvMarshal _ => true
  | _ => false
  end.

(** Events of the mutation chain and of marshalling. *)
Definition is_mutation (e : Event) : bool :=
  match e with
  | EvParseResources _ | EvEnsureResources _ | EvMapResources _ | EvMarshal _ => true
  | _ => false
  end.

(** Events that belong to artifact staging only. *)
Definition staging_only (e : Event) : bool :=
  match e with
  | EvReadFile _ | EvHeadObject _ | EvRm _ | EvUploadSecrets _ => true
  | _ => false
  end.

(** The S3 coordinates of the serialized template of [r]. *)
Definition template_object_of (r : stackCreator Store.World) (templateBytes : bytes) :
    string * string :=
  (Region.S3Bucket (region r), template_key r templateBytes).

Definition is_secrets (e : Event) : bool :=
  match e with EvUploadSecrets _ => true | _ => false end.

(** * Properties *)

(** ** Strings *)

Lemma append_cons (c : ascii) (s t : string) : String c s +:+ t = String c (s +:+ t).
Proof. reflexivity. Qed.

Lemma append_assoc (a b c : string) : (a +:+ b) +:+ c = a +:+ b +:+ c.
Proof.
  induction a as [|x a IH]; [reflexivity|].
  rewrite !append_cons. now rewrite IH.
Qed.

(** Testing a flag with [opt & flag == flag] reads one bit of [opt]. *)
Lemma land_flag_testbit (x k : Z) :
  0 <= k -> (Z.land x (2 ^ k) =? 2 ^ k) = Z.testbit x k.
Proof.
  intros Hk. destruct (Z.testbit x k) eqn:E.
  - apply Z.eqb_eq, Z.bits_inj'. intros n Hn.
    rewrite Z.land_spec, Z.pow2_bits_eqb by lia.
    destruct (Z.eqb_spec k n) as [<-|Hne]; [now rewrite E|apply andb_false_r].
  - apply Z.eqb_neq. intros Heq.
    assert (Hb : Z.testbit (Z.land x (2 ^ k)) k = true).
    { rewrite Heq, Z.pow2_bits_eqb by lia. apply Z.eqb_refl. }
    rewrite Z.land_spec, E in Hb. discriminate.
Qed.

Section Keys.

Context {W : Type}.

(** [s3KeyRoot] with the flag bits read one by one. *)
Lemma s3KeyRoot_bits (r : stackCreator W) (prefixOpt : Z) :
  s3KeyRoot r prefixOpt =
    let tail := "/" +:+ Config.ServiceName (config r) +:+ "/" +:+
                Environment.Name (environment r) +:+ "/" +:+
                Config.ServiceVersion (config r) in
    match Z.testbit prefixOpt 0, Z.testbit prefixOpt 1 with
    | true, _ => Returned ("porter-template" +:+ tail)
    | false, true => Returned ("porter-deployment" +:+ tail)
    | false, false => Panicked ("invalid option " +:+ pretty prefixOpt)
    end.
Proof.
  unfold s3KeyRoot, s3KeyOptTemplate, s3KeyOptDeployment.
  change (Z.shiftl 1 0) with (2 ^ 0). change (Z.shiftl 1 1) with (2 ^ 1).
  rewrite !land_flag_testbit by lia. cbv zeta.
  destruct (Z.testbit prefixOpt 0), (Z.testbit prefixOpt 1); reflexivity.
Qed.

End Keys.

(** ** Hexadecimal digests *)

Lemma EncodeToString_length (src : bytes) :
  String.length (hex.EncodeToString src) = (2 * length src)%nat.
Proof. induction src as [|v src IH]; simpl; [reflexivity|]. rewrite IH. lia. Qed.

Lemma EncodeToString_lower_hex (src : bytes) : lower_hex (hex.EncodeToString src) = true.
Proof.
  induction src as [|v src IH]; [reflexivity|].
  cbn [hex.EncodeToString lower_hex]. rewrite IH.
  destruct v; reflexivity.
Qed.

Lemma Sum256_length (data : bytes) : length (sha256.Sum256 data) = 32%nat.
Proof. reflexivity. Qed.

#[global] Arguments sha256.Sum256 : simpl never.
#[global] Arguments hex.EncodeToString : simpl never.
#[global] Arguments Contains : simpl never.

(** Unfolds the monad so that a run computes by [simpl]. *)
Ltac unfold_go :=
  unfold defer, bind, call, call_method, emit, log, modify_recv, get_recv,
    call_s3KeyRoot, of_outcome, ret, panic in *.

(** ** Artifact staging: [uploadServicePayload] *)

Section Staging.

Context {W : Type}.
Context `{!Constants} `{!Host W} `{!S3API W}.

Lemma key_of_root (r : stackCreator W) (b : bytes) :
  ("porter-deployment" +:+ "/" +:+ Config.ServiceName (config r) +:+ "/" +:+
   Environment.Name (environment r) +:+ "/" +:+ Config.ServiceVersion (config r)) +:+
  "/" +:+ hex.EncodeToString (sha256.Sum256 b) +:+ ".tar" = key_of r b.
Proof.
  unfold key_of, deployment_key. rewrite !append_assoc. reflexivity.
Qed.

Ltac run_staging Hread :=
  unfold uploadServicePayload; unfold_go; simpl;
  rewrite Hread; simpl; rewrite ?key_of_root.

(** The payload cannot be read: nothing is probed or uploaded. *)
Lemma staging_unreadable (s : State W) err w1 :
  ReadFile PayloadPath (world s) = (inr err, w1) ->
  uploadServicePayload s =
    MakeRun (Returned ("", false))
      (MakeState (recv s) (rm_rf PayloadPath w1))
      [EvReadFile PayloadPath;
       EvLog LvlError "ReadFile payload" [("Error", LStr err)];
       EvRm PayloadPath].
Proof. intros Hread. run_staging Hread. reflexivity. Qed.

(** The probe finds a non-empty object: the fast path. *)
Lemma staging_present (s : State W) b w1 probe w2 :
  ReadFile PayloadPath (world s) = (inl b, w1) ->
  HeadObject (probe_input (recv s) b) w1 = (probe, w2) ->
  classify probe = AlreadyStaged ->
  uploadServicePayload s =
    MakeRun (Returned (hex.EncodeToString (sha256.Sum256 b), true))
      (MakeState (staged_recv (recv s) b) (rm_rf PayloadPath w2))
      [EvReadFile PayloadPath;
       EvHeadObject (probe_input (recv s) b);
       EvLog LvlInfo "Service payload exists" [("S3key", LStr (key_of (recv s) b))];
       EvRm PayloadPath].
Proof.
  unfold probe_input. intros Hread Hhead Hc. run_staging Hread.
  rewrite Hhead; simpl.
  destruct probe as [[[n|]]|err]; simpl in *;
    [destruct (0 <? n); [reflexivity|discriminate] | discriminate |
     destruct (Contains err "404"); discriminate].
Qed.

(** The probe fails with an error that does not mention 404. *)
Lemma staging_probe_failed (s : State W) b w1 probe w2 err :
  ReadFile PayloadPath (world s) = (inl b, w1) ->
  HeadObject (probe_input (recv s) b) w1 = (probe, w2) ->
  classify probe = ProbeFailed err ->
  uploadServicePayload s =
    MakeRun (Returned (hex.EncodeToString (sha256.Sum256 b), false))
      (MakeState (staged_recv (recv s) b) (rm_rf PayloadPath w2))
      ([EvReadFile PayloadPath;
        EvHeadObject (probe_input (recv s) b);
        EvLog LvlError "HeadObject" [("Error", LStr err)]] ++
       (if Contains err "403" then
          [EvLog LvlError
             "s3:GetObject and s3:ListBucket are needed for this operation to work" []]
        else []) ++
       [EvRm PayloadPath]).
Proof.
  unfold probe_input. intros Hread Hhead Hc. run_staging Hread.
  rewrite Hhead; simpl.
  destruct probe as [[[n|]]|e]; simpl in *;
    [destruct (0 <? n); discriminate | discriminate |].
  destruct (Contains e "404") eqn:E404; [discriminate|].
  injection Hc as <-. simpl.
  destruct (Contains e "403"); reflexivity.
Qed.

(** Every other probe outcome reaches the upload. *)
Lemma staging_upload (s : State W) b w1 probe w2 uerr w3 :
  ReadFile PayloadPath (world s) = (inl b, w1) ->
  HeadObject (probe_input (recv s) b) w1 = (probe, w2) ->
  classify probe = ProceedToUpload ->
  Upload (payload_upload_input (recv s) b) w2 = (uerr, w3) ->
  uploadServicePayload s =
    MakeRun
      (Returned (hex.EncodeToString (sha256.Sum256 b),
                 match uerr with Some _ => false | None => true end))
      (MakeState (staged_recv (recv s) b) (rm_rf PayloadPath w3))
      ([EvReadFile PayloadPath;
        EvHeadObject (probe_input (recv s) b);
        EvLog LvlInfo "Uploading service payload"
          [("S3key", LStr (key_of (recv s) b)); ("Concurrency", LInt GOMAXPROCS)];
        EvUpload (payload_upload_input (recv s) b)] ++
       match uerr with
       | Some err => [EvLog LvlError "Upload failure" [("Error", LStr err)]]
       | None => []
       end ++
       [EvRm PayloadPath]).
Proof.
  unfold probe_input, payload_upload_input. intros Hread Hhead Hc Hup.
  run_staging Hread. rewrite Hhead; simpl.
  destruct probe as [[[n|]]|e]; simpl in *.
  - destruct (0 <? n); [discriminate|]. simpl. rewrite ?key_of_root, Hup.
    destruct uerr; reflexivity.
  - rewrite ?key_of_root, Hup. destruct uerr; reflexivity.
  - destruct (Contains e "404"); [|discriminate]. simpl.
    rewrite ?key_of_root, Hup. destruct uerr; reflexivity.
Qed.

End Staging.

(** ** Test vectors of the digest (FIPS 180-4, appendix B) *)

Example Sum256_empty :
  hex.EncodeToString (sha256.Sum256 []) =
  "e3b0c44298fc1c149afbf4c8996fb92427ae41e4649b934ca495991b7852b855".
Proof. vm_compute. reflexivity. Qed.

Example Sum256_abc :
  hex.EncodeToString (sha256.Sum256 (bytes_of_string "abc")) =
  "ba7816bf8f01cfea414140de5dae2223b00361a396177a9cb410ff61f20015ad".
Proof. vm_compute. reflexivity. Qed.

Example Sum256_two_blocks :
  hex.EncodeToString
    (sha256.Sum256
       (bytes_of_string "abcdbcdecdefdefgefghfghighijhijkijkljklmklmnlmnomnopnopq")) =
  "248d6a61d20638b8e5c026930c3e6039a33ce45964ff2167f6ecedd419db06c1".
Proof. vm_compute. reflexivity. Qed.

(** ** Splitting keys *)

Lemma append_length (a b : string) :
  String.length (a +:+ b) = (String.length a + String.length b)%nat.
Proof. induction a as [|c a IH]; [reflexivity|]. rewrite append_cons. simpl. now rewrite IH. Qed.

(** Two strings split at their first ["/"] agree piecewise. *)
Lemma split_first_slash (a a' x x' : string) :
  no_slash a = true -> no_slash a' = true ->
  a +:+ "/" +:+ x = a' +:+ "/" +:+ x' -> a = a' /\ x = x'.
Proof.
  revert a'. induction a as [|c a IH]; intros [|c' a'] Ha Ha' Heq.
  - change ("" +:+ "/" +:+ x) with (String "/" x) in Heq.
    change ("" +:+ "/" +:+ x') with (String "/" x') in Heq.
    injection Heq as ->. split; reflexivity.
  - change ("" +:+ "/" +:+ x) with (String "/" x) in Heq.
    rewrite append_cons in Heq. injection Heq as <- _.
    discriminate Ha'.
  - change ("" +:+ "/" +:+ x') with (String "/" x') in Heq.
    rewrite append_cons in Heq. injection Heq as -> _.
    discriminate Ha.
  - rewrite !append_cons in Heq. injection Heq as -> Heq.
    simpl in Ha, Ha'. apply andb_prop in Ha as [_ Ha]. apply andb_prop in Ha' as [_ Ha'].
    destruct (IH a' Ha Ha' Heq) as [-> ->]. split; reflexivity.
Qed.

(** Two strings that end in tails of the same length agree piecewise. *)
Lemma split_equal_tails (a a' t t' : string) :
  String.length t = String.length t' ->
  a +:+ t = a' +:+ t' -> a = a' /\ t = t'.
Proof.
  intros Hlen. revert a'. induction a as [|c a IH]; intros [|c' a'] Heq.
  - split; [reflexivity|exact Heq].
  - exfalso. apply (f_equal String.length) in Heq.
    change ("" +:+ t) with t in Heq. rewrite append_cons in Heq.
    simpl in Heq. rewrite append_length in Heq. lia.
  - exfalso. apply (f_equal String.length) in Heq.
    change ("" +:+ t') with t' in Heq. rewrite append_cons in Heq.
    simpl in Heq. rewrite append_length in Heq. lia.
  - rewrite !append_cons in Heq. injection Heq as -> Heq.
    destruct (IH a' Heq) as [-> ->]. split; reflexivity.
Qed.

(** [hex.EncodeToString] can be read back. *)
Lemma hex_digits_byte (v : byte) :
  Z_to_byte (16 * hex.fromHexChar (hex.digit (Z.shiftr (byte_to_Z v) 4)) +
             hex.fromHexChar (hex.digit (Z.land (byte_to_Z v) 15))) = v.
Proof. destruct v; reflexivity. Qed.

Lemma EncodeToString_inj (x y : bytes) :
  hex.EncodeToString x = hex.EncodeToString y -> x = y.
Proof.
  revert y. induction x as [|v x IH]; intros [|v' y] Heq; try discriminate Heq.
  - reflexivity.
  - change (hex.EncodeToString (v :: x)) with
      (String (hex.digit (Z.shiftr (byte_to_Z v) 4))
         (String (hex.digit (Z.land (byte_to_Z v) 15)) (hex.EncodeToString x))) in Heq.
    change (hex.EncodeToString (v' :: y)) with
      (String (hex.digit (Z.shiftr (byte_to_Z v') 4))
         (String (hex.digit (Z.land (byte_to_Z v') 15)) (hex.EncodeToString y))) in Heq.
    injection Heq as Hhi Hlo Hrest.
    rewrite <- (hex_digits_byte v), <- (hex_digits_byte v'), Hhi, Hlo.
    f_equal. apply IH, Hrest.
Qed.

(** The keys of two payloads agree only when the four components agree,
    as long as neither service name nor environment name holds a ["/"]. *)
Lemma deployment_key_inj (n e v n' e' v' : string) (b b' : bytes) :
  no_slash n = true -> no_slash e = true ->
  no_slash n' = true -> no_slash e' = true ->
  deployment_key n e v b = deployment_key n' e' v' b' ->
  n = n' /\ e = e' /\ v = v' /\ sha256.Sum256 b = sha256.Sum256 b'.
Proof.
  intros Hn He Hn' He' Heq. unfold deployment_key in Heq.
  apply String.app_inj in Heq.
  apply split_first_slash in Heq as [-> Heq]; [|assumption..].
  apply split_first_slash in Heq as [-> Heq]; [|assumption..].
  apply split_equal_tails in Heq as [-> Heq].
  - apply String.app_inj in Heq.
    apply split_equal_tails in Heq as [Heq _]; [|reflexivity].
    apply EncodeToString_inj in Heq. auto.
  - rewrite !append_length, !EncodeToString_length, !Sum256_length. reflexivity.
Qed.

(** Case analysis of a staging run whose payload was read: the goal is
    rewritten with the run of each of the three paths. *)
Ltac staging_cases s b w1 Hread :=
  let probe := fresh "probe" in
  let w2 := fresh "w2" in
  let Hhead := fresh "Hhead" in
  let Hc := fresh "Hc" in
  destruct (HeadObject (probe_input (recv s) b) w1) as [probe w2] eqn:Hhead;
  destruct (classify probe) eqn:Hc;
  [ rewrite (staging_present s b w1 probe w2 Hread Hhead Hc)
  | let uerr := fresh "uerr" in
    let w3 := fresh "w3" in
    let Hup := fresh "Hup" in
    destruct (Upload (payload_upload_input (recv s) b) w2) as [uerr w3] eqn:Hup;
    rewrite (staging_upload s b w1 probe w2 uerr w3 Hread Hhead Hc Hup)
  | rewrite (staging_probe_failed s b w1 probe w2 _ Hread Hhead Hc) ].

Section StagingFacts.

Context {W : Type}.
Context `{!Constants} `{!Host W} `{!S3API W}.

(** Once the payload is read, every path records digest and key in the
    receiver and returns the digest. *)
Lemma staging_records (s : State W) (b : bytes) (w1 : W) :
  ReadFile PayloadPath (world s) = (inl b, w1) ->
  recv (final (uploadServicePayload s)) = staged_recv (recv s) b /\
  exists ok, outcome (uploadServicePayload s) =
             Returned (hex.EncodeToString (sha256.Sum256 b), ok).
Proof.
  intros Hread. staging_cases s b w1 Hread; simpl; eauto.
Qed.

(** [uploadServicePayload] never panics. *)
Lemma staging_returns (s : State W) :
  exists checksum ok, outcome (uploadServicePayload s) = Returned (checksum, ok).
Proof.
  destruct (ReadFile PayloadPath (world s)) as [[b|err] w1] eqn:Hread.
  - destruct (staging_records s b w1 Hread) as [_ [ok Hok]]. eauto.
  - rewrite (staging_unreadable s err w1 Hread). simpl. eauto.
Qed.

End StagingFacts.

(** ** C9: namespace selection in [s3KeyRoot] *)

Lemma selects_template_bit (prefixOpt : Z) :
  selects prefixOpt s3KeyOptTemplate = Z.testbit prefixOpt 0.
Proof. apply (land_flag_testbit prefixOpt 0). lia. Qed.

Lemma selects_deployment_bit (prefixOpt : Z) :
  selects prefixOpt s3KeyOptDeployment = Z.testbit prefixOpt 1.
Proof. apply (land_flag_testbit prefixOpt 1). lia. Qed.

(** C9, as amended. [s3KeyRoot] panics exactly when its argument selects
    neither namespace class. An argument that selects exactly one class
    yields that class's prefix; an argument that selects both classes does
    not panic and yields the template prefix. *)
Theorem s3KeyRoot_selection {W : Type} (r : stackCreator W) (prefixOpt : Z) :
  let template := selects prefixOpt s3KeyOptTemplate in
  let deployment := selects prefixOpt s3KeyOptDeployment in
  let tail := "/" +:+ Config.ServiceName (config r) +:+ "/" +:+
              Environment.Name (environment r) +:+ "/" +:+
              Config.ServiceVersion (config r) in
  s3KeyRoot r prefixOpt =
    (if template || deployment then
       Returned ((if template then "porter-template" else "porter-deployment") +:+ tail)
     else Panicked ("invalid option " +:+ pretty prefixOpt)) /\
  ((exists msg, s3KeyRoot r prefixOpt = Panicked msg) <->
   template = false /\ deployment = false) /\
  (xorb template deployment = true ->
   s3KeyRoot r prefixOpt =
     Returned ((if template then "porter-template" else "porter-deployment") +:+ tail)) /\
  (template = true -> deployment = true ->
   s3KeyRoot r prefixOpt = Returned ("porter-template" +:+ tail)).
Proof.
  cbv zeta. rewrite s3KeyRoot_bits, selects_template_bit, selects_deployment_bit.
  cbv zeta.
  destruct (Z.testbit prefixOpt 0), (Z.testbit prefixOpt 1); simpl;
    (split; [reflexivity|split; [split|split]]).
  all: try (intros [msg Hm]; discriminate Hm).
  all: try (intros [H1 H2]; discriminate).
  all: try (intros; reflexivity).
  all: try (intros; discriminate).
  all: intros; eauto.
Qed.

(** C9, as stated, fails at [prefixOpt = 3]: both classes are selected, and
    [s3KeyRoot] returns the template prefix without panicking. *)
Lemma s3KeyRoot_both_classes :
  selects 3 s3KeyOptTemplate = true /\
  selects 3 s3KeyOptDeployment = true /\
  s3KeyRoot Examples.svc 3 = Returned "porter-template/svc/prod/1.0".
Proof. repeat split. Qed.

(** ** C4: the storage key of the deployment artifact *)

(** C4. When the payload file holds [b], [uploadServicePayload] records the
    key [porter-deployment/<serviceName>/<environmentName>/<serviceVersion>/<digest>.tar],
    where [<digest>] is the SHA-256 of [b] in 64 lowercase hexadecimal digits; for
    service svc, version 1.0 and environment prod the key is
    [porter-deployment/svc/prod/1.0/<digest>.tar]; and any other run with the
    same names, version and bytes records the same key. *)
Theorem payload_key_derivation {W : Type} `{!Constants} `{!Host W} `{!S3API W}
    (s : State W) (b : bytes) (w1 : W) :
  ReadFile PayloadPath (world s) = (inl b, w1) ->
  let d := hex.EncodeToString (sha256.Sum256 b) in
  let r := recv (final (uploadServicePayload s)) in
  servicePayloadKey r =
    "porter-deployment/" +:+ Config.ServiceName (config (recv s)) +:+ "/" +:+
    Environment.Name (environment (recv s)) +:+ "/" +:+
    Config.ServiceVersion (config (recv s)) +:+ "/" +:+ d +:+ ".tar" /\
  servicePayloadChecksum r = d /\
  String.length d = 64%nat /\ lower_hex d = true /\
  (Config.ServiceName (config (recv s)) = "svc" ->
   Config.ServiceVersion (config (recv s)) = "1.0" ->
   Environment.Name (environment (recv s)) = "prod" ->
   servicePayloadKey r = "porter-deployment/svc/prod/1.0/" +:+ d +:+ ".tar") /\
  (forall (s' : State W) (w1' : W),
     config (recv s') = config (recv s) ->
     Environment.Name (environment (recv s')) = Environment.Name (environment (recv s)) ->
     ReadFile PayloadPath (world s') = (inl b, w1') ->
     servicePayloadKey (recv (final (uploadServicePayload s'))) = servicePayloadKey r).
Proof.
  intros Hread d r.
  destruct (staging_records s b w1 Hread) as [Hrecv _].
  subst r. rewrite Hrecv.
  unfold staged_recv, set_servicePayloadKey, set_servicePayloadChecksum.
  cbn [servicePayloadKey servicePayloadChecksum].
  unfold key_of, deployment_key. fold d.
  split; [reflexivity|]. split; [reflexivity|].
  split; [unfold d; now rewrite EncodeToString_length, Sum256_length|].
  split; [apply EncodeToString_lower_hex|].
  split.
  - clearbody d. intros -> -> ->. reflexivity.
  - subst d. intros s' w1' Hcfg Henv Hread'.
    destruct (staging_records s' b w1' Hread') as [-> _].
    unfold staged_recv, set_servicePayloadKey, set_servicePayloadChecksum.
    cbn [servicePayloadKey]. unfold key_of, deployment_key.
    rewrite Hcfg, Henv. reflexivity.
Qed.

Lemma payload_key_derivation_witness :
  let s := MakeState Examples.svc (Examples.with_payload (bytes_of_string "abc")) in
  servicePayloadKey (recv (final (uploadServicePayload s))) =
  "porter-deployment/svc/prod/1.0/ba7816bf8f01cfea414140de5dae2223b00361a396177a9cb410ff61f20015ad.tar".
Proof.
  intros s.
  destruct (payload_key_derivation s (bytes_of_string "abc") (world s)) as (_ & _ & _ & _ & H & _).
  - reflexivity.
  - rewrite H by reflexivity. vm_compute. reflexivity.
Defined.

(** ** C5: distinct artifacts and their keys *)

(** There are more 33-byte contents than 32-byte digests: two different
    contents have the same SHA-256 digest, and so the same key under every
    service, environment and version. The key can tell contents apart only
    through their digests. *)
Lemma Sum256_collision :
  exists b1 b2 : bytes, b1 <> b2 /\ sha256.Sum256 b1 = sha256.Sum256 b2.
Proof.
  destruct (decide (exists x y : { l : bytes | length l = 33%nat },
                      x <> y /\ digest_of x = digest_of y)) as [(x & y & Hne & Heq)|Hnone].
  - exists (proj1_sig x), (proj1_sig y). split.
    + intros Hxy. apply Hne. now apply (sig_eq_pi _).
    + apply (f_equal proj1_sig) in Heq. exact Heq.
  - exfalso.
    assert (Hinj : Inj (=) (=) digest_of).
    { intros x y Heq. destruct (decide (x = y)) as [|Hne]; [assumption|].
      exfalso. apply Hnone. eauto. }
    apply inj_card in Hinj. rewrite !list_card in Hinj.
    change (card byte) with 256%nat in Hinj.
    apply (Nat.pow_le_mono_r_iff 256 33 32) in Hinj; lia.
Qed.

Lemma deployment_key_content_collision :
  exists b1 b2 : bytes,
    b1 <> b2 /\ forall n e v, deployment_key n e v b1 = deployment_key n e v b2.
Proof.
  destruct Sum256_collision as (b1 & b2 & Hne & Heq).
  exists b1, b2. split; [exact Hne|]. intros n e v. unfold deployment_key. now rewrite Heq.
Qed.

(** C5, as amended. Two payloads whose service names and environment names
    hold no ["/"], and which differ in service name, environment name,
    service version or SHA-256 digest of the content, are recorded under
    different storage keys. *)
Theorem deployment_keys_differ {W : Type} `{!Constants} `{!Host W} `{!S3API W}
    (s1 s2 : State W) (b1 b2 : bytes) (w1 w2 : W) :
  ReadFile PayloadPath (world s1) = (inl b1, w1) ->
  ReadFile PayloadPath (world s2) = (inl b2, w2) ->
  no_slash (Config.ServiceName (config (recv s1))) = true ->
  no_slash (Environment.Name (environment (recv s1))) = true ->
  no_slash (Config.ServiceName (config (recv s2))) = true ->
  no_slash (Environment.Name (environment (recv s2))) = true ->
  (Config.ServiceName (config (recv s1)), Environment.Name (environment (recv s1)),
   Config.ServiceVersion (config (recv s1)), sha256.Sum256 b1) <>
  (Config.ServiceName (config (recv s2)), Environment.Name (environment (recv s2)),
   Config.ServiceVersion (config (recv s2)), sha256.Sum256 b2) ->
  servicePayloadKey (recv (final (uploadServicePayload s1))) <>
  servicePayloadKey (recv (final (uploadServicePayload s2))).
Proof.
  intros Hr1 Hr2 Hn1 He1 Hn2 He2 Hne Hkey. apply Hne.
  destruct (staging_records s1 b1 w1 Hr1) as [E1 _].
  destruct (staging_records s2 b2 w2 Hr2) as [E2 _].
  rewrite E1, E2 in Hkey.
  unfold staged_recv, set_servicePayloadKey, set_servicePayloadChecksum in Hkey.
  cbn [servicePayloadKey] in Hkey. unfold key_of in Hkey.
  apply deployment_key_inj in Hkey as (-> & -> & -> & ->); auto.
Qed.

Lemma deployment_keys_differ_witness :
  let s1 := MakeState Examples.svc (Examples.with_payload (bytes_of_string "abc")) in
  let s2 := MakeState Examples.svc (Examples.with_payload []) in
  no_slash (Config.ServiceName (config (recv s1))) = true /\
  no_slash (Environment.Name (environment (recv s1))) = true /\
  servicePayloadKey (recv (final (uploadServicePayload s1))) <>
  servicePayloadKey (recv (final (uploadServicePayload s2))).
Proof.
  intros s1 s2. split; [reflexivity|]. split; [reflexivity|].
  apply (deployment_keys_differ s1 s2 (bytes_of_string "abc") [] (world s1) (world s2));
    try reflexivity.
  vm_compute. discriminate.
Defined.

(** C5, as stated, fails: service ["a/b"] in environment ["c"] and service
    ["a"] in environment ["b/c"] differ in two components, and the same
    bytes are recorded under the same key for both. *)
Lemma deployment_keys_collide :
  let b := bytes_of_string "abc" in
  let s1 := MakeState (Examples.creator "a/b" "1" "c" (inl "") None) (Examples.with_payload b) in
  let s2 := MakeState (Examples.creator "a" "1" "b/c" (inl "") None) (Examples.with_payload b) in
  (Config.ServiceName (config (recv s1)), Environment.Name (environment (recv s1)),
   Config.ServiceVersion (config (recv s1)), b) <>
  (Config.ServiceName (config (recv s2)), Environment.Name (environment (recv s2)),
   Config.ServiceVersion (config (recv s2)), b) /\
  servicePayloadKey (recv (final (uploadServicePayload s1))) =
  servicePayloadKey (recv (final (uploadServicePayload s2))) /\
  servicePayloadKey (recv (final (uploadServicePayload s1))) =
  "porter-deployment/a/b/c/1/ba7816bf8f01cfea414140de5dae2223b00361a396177a9cb410ff61f20015ad.tar".
Proof.
  split; [discriminate|]. split; vm_compute; reflexivity.
Qed.

(** ** C1: staging the same bytes twice *)

Section Restaging.

Context `{!Constants}.

Lemma set_files_objects (f : gmap string bytes) (w : Store.World) :
  Store.objects (Store.set_files f w) = Store.objects w.
Proof. reflexivity. Qed.

Lemma store_read (w : Store.World) (b : bytes) :
  Store.files w !! PayloadPath = Some b ->
  ReadFile PayloadPath w = (inl b, w).
Proof. intros Hf. cbn. unfold Store.read. now rewrite Hf. Qed.

(** A first call that reports success leaves a non-empty object under
    the key, and uploaded at most once. *)
Lemma staged_object (s : State Store.World) (b : bytes) :
  b <> [] ->
  Store.files (world s) !! PayloadPath = Some b ->
  succeeded (outcome (uploadServicePayload s)) = true ->
  let first := uploadServicePayload s in
  (exists body,
     Store.objects (world (final first)) !! object_of (recv s) b = Some body /\
     body <> []) /\
  recv (final first) = staged_recv (recv s) b /\
  outcome first = Returned (hex.EncodeToString (sha256.Sum256 b), true) /\
  (length (uploads (events first)) <= 1)%nat /\
  (Store.objects (world s) !! object_of (recv s) b = None ->
   length (uploads (events first)) = 1%nat).
Proof.
  intros Hb Hfile. pose proof (store_read _ _ Hfile) as Hread.
  cbv zeta. staging_cases s b (world s) Hread; cbn [outcome final events recv world succeeded].
  - intros _. cbn in Hhead. unfold object_of.
    destruct (Store.head_fault (world s)) as [err|].
    { injection Hhead as <- <-. cbn in Hc. destruct (Contains err "404"); discriminate. }
    destruct (Store.objects (world s) !! _) as [body|] eqn:E;
      injection Hhead as <- <-; cbn in Hc.
    + destruct (0 <? Z.of_nat (length body)) eqn:Hlen; [|discriminate].
      repeat split; try (cbn; lia).
      * exists body. split; [exact E|]. intros ->. discriminate Hlen.
      * intros Hnone. cbn in Hnone. congruence.
    + discriminate.
  - cbn in Hup. destruct (Store.upload_fault w2) as [err|]; injection Hup as <- <-.
    { intros Hok. discriminate Hok. }
    intros _. repeat split; try (cbn; lia).
    exists b. split; [|exact Hb]. cbn. unfold object_of. apply lookup_insert_eq.
  - intros Hok. discriminate Hok.
Qed.

(** A call that finds a non-empty object under the key takes the fast
    path. *)
Lemma restaged_present (r : stackCreator Store.World) (w : Store.World) (b body : bytes) :
  Store.files w !! PayloadPath = Some b ->
  Store.head_fault w = None ->
  Store.objects w !! object_of r b = Some body ->
  body <> [] ->
  uploadServicePayload (MakeState (staged_recv r b) w) =
    MakeRun (Returned (hex.EncodeToString (sha256.Sum256 b), true))
      (MakeState (staged_recv r b) (rm_rf PayloadPath w))
      [EvReadFile PayloadPath;
       EvHeadObject (probe_input r b);
       EvLog LvlInfo "Service payload exists" [("S3key", LStr (key_of r b))];
       EvRm PayloadPath].
Proof.
  intros Hfile Hfault Hobj Hbody.
  pose proof (store_read _ _ Hfile) as Hread.
  rewrite (staging_present (MakeState (staged_recv r b) w) b w
             (inl (HeadObjectOutput.Make (Some (Z.of_nat (length body))))) w).
  - reflexivity.
  - exact Hread.
  - cbn. rewrite Hfault. unfold object_of in Hobj.
    change (key_of (staged_recv r b) b) with (key_of r b). now rewrite Hobj.
  - cbn. destruct body; [congruence|]. reflexivity.
Qed.

End Restaging.

(** C1, as amended. For every non-empty byte sequence, when a first call of
    [uploadServicePayload] has succeeded and the same bytes are staged
    again, the HEAD probe of the derived key succeeds with a positive
    content length and the second call returns the same digest, records the
    same key and reports success without invoking the upload; the two calls
    upload at most once, and exactly once when the object was absent
    before the first. *)
Theorem idempotent_staging_nonempty (b : bytes) : b <> [] -> idempotent_staging b.
Proof.
  intros Hb C s w2 Hfile Hok (Hfile2 & Hobjs & Hfault).
  destruct (staged_object s b Hb Hfile Hok) as ((body & Hbody & Hne) & Hrecv & Hout & Hle & Hone).
  unfold second_call_reuses. cbv zeta.
  rewrite <- Hobjs in Hbody.
  rewrite Hrecv, (restaged_present (recv s) w2 b body Hfile2 Hfault Hbody Hne), Hout.
  cbn [outcome final events recv].
  split.
  { exists (Z.of_nat (length body)). cbn. rewrite Hfault.
    unfold object_of in Hbody. rewrite Hbody. split; [reflexivity|].
    destruct body; [congruence|]. cbn. lia. }
  split; [cbn; auto|].
  do 4 (split; [reflexivity|]).
  unfold uploads in *. rewrite List.filter_app, length_app. cbn.
  split; [lia|]. intros Hnone. rewrite (Hone Hnone). reflexivity.
Qed.

Lemma idempotent_staging_nonempty_witness :
  let b := bytes_of_string "abc" in
  let s := MakeState Examples.svc (Examples.with_payload b) in
  second_call_reuses b s
    (Store.set_files {[ PayloadPath := b ]} (world (final (uploadServicePayload s)))).
Proof.
  intros b s.
  apply (idempotent_staging_nonempty b); [discriminate|reflexivity|reflexivity|].
  split; [reflexivity|]. split; [apply set_files_objects|vm_compute; reflexivity].
Defined.

(** C1, as stated for every byte sequence, fails on the empty payload: the
    first call succeeds and uploads an empty object, the bytes are staged
    again, the second probe succeeds with content length 0, and the second
    call invokes the upload again. *)
Lemma empty_payload_uploaded_twice :
  let s := MakeState Examples.svc (Examples.with_payload []) in
  let first := uploadServicePayload s in
  let w2 := Store.set_files {[ PayloadPath := [] ]} (world (final first)) in
  let second := uploadServicePayload (MakeState (recv (final first)) w2) in
  Store.files (world s) !! PayloadPath = Some [] /\
  succeeded (outcome first) = true /\
  restaged [] (world (final first)) w2 /\
  (HeadObject (probe_input (recv s) []) w2).1 = inl (HeadObjectOutput.Make (Some 0)) /\
  uploads (events second) = [EvUpload (payload_upload_input Examples.svc [])] /\
  length (uploads (events first ++ events second)) = 2%nat.
Proof.
  split; [reflexivity|]. split; [reflexivity|].
  split; [split; [reflexivity|split; [apply set_files_objects|vm_compute; reflexivity]]|].
  split; [vm_compute; reflexivity|]. split; vm_compute; reflexivity.
Qed.

(** Hence the claim does not hold of the empty byte sequence. *)
Lemma idempotent_staging_empty : ~ idempotent_staging [].
Proof.
  intros Hclaim.
  pose (s := MakeState Examples.svc (Examples.with_payload [])).
  pose (w2 := Store.set_files {[ PayloadPath := [] ]}
                (world (final (uploadServicePayload s)))).
  assert (H : second_call_reuses [] s w2).
  { apply Hclaim; [reflexivity|reflexivity|].
    split; [reflexivity|]. split; [apply set_files_objects|vm_compute; reflexivity]. }
  destruct H as (_ & _ & _ & _ & _ & Huploads & _).
  vm_compute in Huploads. discriminate Huploads.
Qed.

(** ** C3: classification of the probe outcome *)

(** What lines 123-128 do with a failed probe. A message that contains
    "404" leads to the upload: the stage then succeeds exactly when the
    upload does. A message that does not contain "404" fails the stage at
    once, with no upload; this is the path that every forbidden (403) error
    takes when its message is free of "404". The permissions hint is logged
    exactly for messages with "403" and without "404". *)
Theorem probe_classification {W : Type} `{!Constants} `{!Host W} `{!S3API W}
    (s : State W) (b : bytes) (w1 : W) (err : error) (w2 : W) :
  ReadFile PayloadPath (world s) = (inl b, w1) ->
  HeadObject (probe_input (recv s) b) w1 = (inr err, w2) ->
  let run := uploadServicePayload s in
  let input := payload_upload_input (recv s) b in
  (Contains err "404" = true ->
   uploads (events run) = [EvUpload input] /\
   succeeded (outcome run) = bool_decide ((Upload input w2).1 = None) /\
   world (final run) = rm_rf PayloadPath (Upload input w2).2) /\
  (Contains err "404" = false ->
   outcome run = Returned (hex.EncodeToString (sha256.Sum256 b), false) /\
   uploads (events run) = [] /\
   world (final run) = rm_rf PayloadPath w2) /\
  (Contains err "403" = true -> Contains err "404" = false ->
   succeeded (outcome run) = false /\ uploads (events run) = [] /\
   In permissions_hint (events run)) /\
  (In permissions_hint (events run) <->
   Contains err "403" = true /\ Contains err "404" = false).
Proof.
  intros Hread Hhead run input. subst run input.
  destruct (Contains err "404") eqn:E404.
  - destruct (Upload (payload_upload_input (recv s) b) w2) as [uerr w3] eqn:Hup.
    assert (Hc : classify (inr err) = ProceedToUpload) by (unfold classify; now rewrite E404).
    rewrite (staging_upload s b w1 (inr err) w2 uerr w3 Hread Hhead Hc Hup).
    cbn [outcome final events world succeeded fst snd].
    split; [intros _; destruct uerr; repeat split|].
    split; [discriminate|]. split; [discriminate|].
    split; [|intros [_ Hin]; discriminate Hin].
    unfold permissions_hint. destruct uerr; cbn; intros Hin;
      repeat (destruct Hin as [Hin|Hin]; [discriminate Hin|]); destruct Hin.
  - assert (Hc : classify (inr err) = ProbeFailed err) by (unfold classify; now rewrite E404).
    rewrite (staging_probe_failed s b w1 (inr err) w2 err Hread Hhead Hc).
    cbn [outcome final events world succeeded].
    split; [discriminate|].
    assert (Hup : uploads
                    ([EvReadFile PayloadPath; EvHeadObject (probe_input (recv s) b);
                      EvLog LvlError "HeadObject" [("Error", LStr err)]] ++
                     (if Contains err "403" then [permissions_hint] else []) ++
                     [EvRm PayloadPath]) = []).
    { destruct (Contains err "403"); reflexivity. }
    split; [intros _; repeat split; exact Hup|].
    split.
    + intros E403 _. split; [reflexivity|]. split; [exact Hup|].
      rewrite E403. cbn. auto 6.
    + destruct (Contains err "403"); cbn; split.
      * auto.
      * auto 6.
      * intros Hin. repeat (destruct Hin as [Hin|Hin]; [discriminate Hin|]). destruct Hin.
      * intros [Hin _]; discriminate Hin.
Qed.

Lemma probe_classification_witness :
  let b := bytes_of_string "abc" in
  let err := "Forbidden: Forbidden, status code: 403" in
  let w := Store.MakeWorld {[ PayloadPath := b ]} ∅ (Some err) None None in
  let run := uploadServicePayload (MakeState Examples.svc w) in
  succeeded (outcome run) = false /\ uploads (events run) = [] /\
  In permissions_hint (events run).
Proof.
  intros b err w run.
  apply (probe_classification (MakeState Examples.svc w) b w err w); reflexivity.
Defined.

(** C3. The code misses the claim on a forbidden error whose message also
    holds "404" (here in the request id): the probe error is a 403, and yet
    the upload is invoked and the stage succeeds. The test for "404" at
    line 123 reads the whole error text and comes before the 403 branch of
    lines 125-127, which fails the stage with the permissions hint for the
    same reply under a request id free of "404"
    ([probe_classification_witness]). *)
Lemma forbidden_probe_uploads :
  let b := bytes_of_string "abc" in
  let err := "Forbidden: Forbidden, status code: 403, request id: 4042A1B9C3D5E6F7" in
  let w := Store.MakeWorld {[ PayloadPath := b ]} ∅ (Some err) None None in
  let run := uploadServicePayload (MakeState Examples.svc w) in
  (HeadObject (probe_input Examples.svc b) w).1 = inr err /\
  Contains err "403" = true /\
  uploads (events run) = [EvUpload (payload_upload_input Examples.svc b)] /\
  succeeded (outcome run) = true.
Proof. vm_compute. repeat split. Qed.

(** ** C6: the order of [mutateTemplate] *)

Section Mutation.

Context {W : Type}.
Context `{!Constants} `{!Collaborators W}.

(** The run of [mutateTemplate], call by call. *)
Lemma mutateTemplate_run (s : State W) (template : cfn.Template) :
  let ensured := ensureResources (described (recv s) template) (recv s) (world s) in
  let mapped := mapResources ensured.1.1.2 ensured.1.2 ensured.2 in
  mutateTemplate template s =
    if ensured.1.1.1 then
      MakeRun (Returned (mapped.1.1.1, mapped.1.1.2)) (MakeState mapped.1.2 mapped.2)
        [EvEnsureResources (described (recv s) template); EvMapResources ensured.1.1.2]
    else
      MakeRun (Returned (false, ensured.1.1.2)) (MakeState ensured.1.2 ensured.2)
        [EvEnsureResources (described (recv s) template)].
Proof.
  cbv zeta. unfold mutateTemplate, described. unfold_go. simpl.
  destruct (ensureResources _ (recv s) (world s)) as [[[ok1 t1] r1] w1]. simpl.
  destruct ok1; simpl; [|reflexivity].
  destruct (mapResources t1 r1 w1) as [[[ok2 t2] r2] w2]. simpl.
  destruct ok2; reflexivity.
Qed.

End Mutation.

(** C6. Every call of [mutateTemplate] first sets the description to
    [<serviceName> (powered by porter <version>)], then runs
    [ensureResources] on the described template, and runs [mapResources]
    only after [ensureResources] has succeeded, on what it left; the first
    failing sub-step aborts the stage with failure. *)
Theorem mutation_order {W : Type} `{!Constants} `{!Collaborators W}
    (s : State W) (template : cfn.Template) :
  let run := mutateTemplate template s in
  let first := cfn.MakeTemplate
                 (Config.ServiceName (config (recv s)) +:+ " (powered by porter " +:+
                  Version +:+ ")")
                 (cfn.Resources template) in
  let ensured := ensureResources first (recv s) (world s) in
  let mapped := mapResources ensured.1.1.2 ensured.1.2 ensured.2 in
  hd_error (events run) = Some (EvEnsureResources first) /\
  (ensured.1.1.1 = false ->
   run = MakeRun (Returned (false, ensured.1.1.2)) (MakeState ensured.1.2 ensured.2)
           [EvEnsureResources first]) /\
  (ensured.1.1.1 = true ->
   run = MakeRun (Returned (mapped.1.1.1, mapped.1.1.2)) (MakeState mapped.1.2 mapped.2)
           [EvEnsureResources first; EvMapResources ensured.1.1.2]) /\
  (forall e, In e (events run) -> is_map_resources e = true ->
             ensured.1.1.1 = true /\ e = EvMapResources ensured.1.1.2 /\
             events run = [EvEnsureResources first; e]) /\
  (exists t, outcome run = Returned (ensured.1.1.1 && mapped.1.1.1, t)).
Proof.
  cbv zeta. rewrite mutateTemplate_run. fold (described (recv s) template).
  destruct (ensureResources (described (recv s) template) (recv s) (world s))
    as [[[ok1 t1] r1] w1]. cbn [fst snd].
  destruct ok1; cbn [events outcome hd_error andb].
  - split; [reflexivity|]. split; [discriminate|]. split; [reflexivity|].
    split; [|eauto].
    intros e [<-|[<-|[]]] He; [discriminate He|]. auto.
  - split; [reflexivity|]. split; [reflexivity|]. split; [discriminate|].
    split; [|eauto].
    intros e [<-|[]] He. discriminate He.
Qed.

(** ** C7: where template assembly starts *)

Section Assembly.

Context {W : Type}.
Context `{!Constants} `{!Host W} `{!TemplateCodec} `{!Collaborators W}.

Ltac run_template :=
  unfold createTemplate; unfold_go; simpl.

Ltac split_mutation st tpl :=
  rewrite (mutateTemplate_run st tpl); cbv zeta;
  destruct (ensureResources (described (recv st) tpl) (recv st) (world st))
    as [[[[] ?t] ?r] ?w]; cbn [fst snd];
  [destruct (mapResources _ _ _) as [[[[] ?t] ?r] ?w]; cbn [fst snd]|]; simpl;
  try destruct (Marshal _); simpl.

(** Every path through [createTemplate]. *)
Ltac template_cases st :=
  run_template;
  destruct (Environment.GetStackDefinitionPath (environment (recv st))
              (Region.Name (region (recv st)))) as [?path|?err] eqn:?Hpath; simpl;
  [ destruct (String.eqb _ "") eqn:?Hempty; simpl;
    [ split_mutation st (ParseResources cfn.NewTemplate)
    | destruct (Open _ (world st)) as [[?doc|?err] ?w] eqn:?Hopen; simpl;
      [ destruct (Decode _ cfn.NewTemplate) as [?t|?err] eqn:?Hdecode; simpl;
        [ match goal with
          | |- context [mutateTemplate ?tpl ?st'] => split_mutation st' tpl
          end
        | ]
      | ] ]
  | ].

(** [createTemplate] never panics, and nothing it does leaves the
    assembly: no upload, no local mirror, no dispatch. *)
Lemma createTemplate_stays (s : State W) :
  (exists templateBytes ok, outcome (createTemplate s) = Returned (templateBytes, ok)) /\
  forallb (fun e => negb (leaves_assembly e)) (events (createTemplate s)) = true.
Proof. template_cases s; split; eauto. Qed.

(** Without success there are no template bytes. *)
Lemma createTemplate_failure (s : State W) (templateBytes : bytes) :
  outcome (createTemplate s) = Returned (templateBytes, false) -> templateBytes = [].
Proof. template_cases s; intros Hout; inversion Hout; reflexivity. Qed.

(** C7. With an empty override path no file is opened or decoded and the
    first step of the assembly, [ParseResources], receives the empty
    template of [cfn.NewTemplate]. With a non-empty override path, a
    failure to open the file, or to decode it into the template, makes
    [createTemplate] return failure with no template bytes: nothing is
    expanded, mutated or marshalled. *)
Theorem template_assembly_start (s : State W) :
  let env := environment (recv s) in
  let rgn := Region.Name (region (recv s)) in
  let run := createTemplate s in
  (Environment.GetStackDefinitionPath env rgn = inl "" ->
   exists evs,
     events run =
       EvGetStackDefinitionPath rgn ::
       EvParseResources (cfn.MakeTemplate "" ∅) :: evs /\
     forallb (fun e => negb (reads_override e)) evs = true) /\
  (forall path err w',
     Environment.GetStackDefinitionPath env rgn = inl path -> path <> "" ->
     Open path (world s) = (inr err, w') ->
     run = MakeRun (Returned ([], false)) (MakeState (recv s) w')
             [EvGetStackDefinitionPath rgn;
              EvLog LvlInfo "Using custom stack definition" [("Path", LStr path)];
              EvOpen path;
              EvLog LvlError "os.Open" [("Path", LStr path); ("Error", LStr err)]]) /\
  (forall path doc w' err,
     Environment.GetStackDefinitionPath env rgn = inl path -> path <> "" ->
     Open path (world s) = (inl doc, w') ->
     Decode doc cfn.NewTemplate = inr err ->
     run = MakeRun (Returned ([], false)) (MakeState (recv s) w')
             [EvGetStackDefinitionPath rgn;
              EvLog LvlInfo "Using custom stack definition" [("Path", LStr path)];
              EvOpen path;
              EvDecode doc;
              EvLog LvlError "json.Decode" [("Path", LStr path); ("Error", LStr err)]]).
Proof.
  cbv zeta. split; [|split].
  - intros Hpath. run_template. rewrite Hpath. simpl.
    split_mutation s (ParseResources cfn.NewTemplate); eexists; split; reflexivity.
  - intros path err w' Hpath Hne Hopen. run_template. rewrite Hpath. simpl.
    destruct (String.eqb_spec path ""); [contradiction|]. simpl.
    rewrite Hopen. reflexivity.
  - intros path doc w' err Hpath Hne Hopen Hdecode. run_template. rewrite Hpath. simpl.
    destruct (String.eqb_spec path ""); [contradiction|]. simpl.
    rewrite Hopen. simpl. rewrite Hdecode. reflexivity.
Qed.

End Assembly.

Lemma template_assembly_start_witness :
  let r := Examples.creator "svc" "1.0" "prod" (inl "stack.json") None in
  let s := MakeState r Examples.empty_world in
  createTemplate (Collaborators0 := Examples.collaborators true true true) s =
    MakeRun (Returned ([], false)) s
      [EvGetStackDefinitionPath "us-west-2";
       EvLog LvlInfo "Using custom stack definition" [("Path", LStr "stack.json")];
       EvOpen "stack.json";
       EvLog LvlError "os.Open"
         [("Path", LStr "stack.json");
          ("Error", LStr "open stack.json: no such file or directory")]].
Proof.
  intros r s.
  apply (proj1 (proj2 (template_assembly_start
                         (Collaborators0 := Examples.collaborators true true true) s)));
    [reflexivity|discriminate|reflexivity].
Defined.

(** ** Template staging and dispatch: [createStack] *)

Section Dispatch.

Context {W : Type}.
Context `{!Constants} `{!Host W} `{!S3API W} `{!TemplateCodec} `{!Collaborators W}.

(** The run of [createStack], call by call, after the run of
    [createTemplate]. *)
Lemma createStack_run (s : State W) :
  let tmpl := createTemplate s in
  createStack s =
    match outcome tmpl with
    | Returned (templateBytes, true) =>
        let r := recv (final tmpl) in
        let mirror := EvWriteFile CloudFormationTemplatePath templateBytes in
        let written := WriteFile CloudFormationTemplatePath templateBytes (world (final tmpl)) in
        match written.1 with
        | Some err =>
            MakeRun (Returned ("", false)) (MakeState r written.2)
              (events tmpl ++
               [mirror;
                EvLog LvlError ("Unable to write " +:+ CloudFormationTemplatePath +:+ " file")
                  [("Error", LStr err)]])
        | None =>
            let input := template_upload_input r templateBytes in
            let uploaded := Upload input written.2 in
            match uploaded.1 with
            | Some err =>
                MakeRun (Returned ("", false)) (MakeState r uploaded.2)
                  (events tmpl ++
                   [mirror; uploading_template r templateBytes; EvUpload input;
                    EvLog LvlError "Upload failure" [("Error", LStr err)]])
            | None =>
                let params := dispatch_params r templateBytes in
                let api := cfnAPI r params uploaded.2 in
                MakeRun (Returned api.1) (MakeState r api.2)
                  (events tmpl ++
                   [mirror; uploading_template r templateBytes; EvUpload input;
                    EvCfnAPI params])
            end
        end
    | Returned (_, false) => MakeRun (Returned ("", false)) (final tmpl) (events tmpl)
    | Panicked msg => MakeRun (Panicked msg) (final tmpl) (events tmpl)
    end.
Proof.
  cbv zeta. unfold createStack. unfold_go.
  destruct (createTemplate s) as [[[templateBytes []]|msg] s1 evs];
    cbn [outcome final events fst snd negb]; [| now rewrite app_nil_r | reflexivity].
  simpl.
  destruct (WriteFile CloudFormationTemplatePath templateBytes (world s1)) as [[err|] w2];
    simpl; [reflexivity|].
  unfold template_upload_input, template_key, uploading_template, dispatch_params.
  destruct (Region.SSEKMSKeyId (region (recv s1))) as [keyId|]; simpl;
    destruct (Upload _ w2) as [[err|] w3]; simpl; reflexivity.
Qed.

End Dispatch.

Lemma forallb_weaken {A} (p q : A -> bool) (l : list A) :
  (forall x, p x = true -> q x = true) -> forallb p l = true -> forallb q l = true.
Proof.
  intros Hpq. rewrite !forallb_forall. auto.
Qed.

Section Uploads.

Context {W : Type}.
Context `{!Constants} `{!Host W} `{!S3API W} `{!TemplateCodec} `{!Collaborators W}.

(** The events of artifact staging belong to artifact staging. *)
Lemma staging_events (s : State W) :
  forallb (fun e => negb (after_staging e)) (events (uploadServicePayload s)) = true.
Proof.
  destruct (ReadFile PayloadPath (world s)) as [[b|err] w1] eqn:Hread.
  - staging_cases s b w1 Hread; cbn [events].
    + reflexivity.
    + destruct uerr; reflexivity.
    + destruct (Contains err "403"); reflexivity.
  - rewrite (staging_unreadable s err w1 Hread). reflexivity.
Qed.

(** The only upload of artifact staging is that of the payload. *)
Lemma staging_uploads (s : State W) (u : UploadInput.t) :
  In (EvUpload u) (events (uploadServicePayload s)) ->
  exists b, u = payload_upload_input (recv s) b.
Proof.
  destruct (ReadFile PayloadPath (world s)) as [[b|err] w1] eqn:Hread.
  - staging_cases s b w1 Hread; cbn [events].
    + intros Hin. repeat (destruct Hin as [Hin|Hin]; [discriminate Hin|]). destruct Hin.
    + intros Hin. apply in_app_or in Hin as [Hin|Hin].
      * do 3 (destruct Hin as [Hin|Hin]; [discriminate Hin|]).
        destruct Hin as [Hin|[]]. injection Hin as <-. eauto.
      * destruct uerr; cbn in Hin;
          repeat (destruct Hin as [Hin|Hin]; [discriminate Hin|]); destruct Hin.
    + intros Hin. apply in_app_or in Hin as [Hin|Hin].
      * repeat (destruct Hin as [Hin|Hin]; [discriminate Hin|]). destruct Hin.
      * destruct (Contains err "403"); cbn in Hin;
          repeat (destruct Hin as [Hin|Hin]; [discriminate Hin|]); destruct Hin.
  - rewrite (staging_unreadable s err w1 Hread). cbn.
    intros Hin. repeat (destruct Hin as [Hin|Hin]; [discriminate Hin|]). destruct Hin.
Qed.

Lemma assembly_has_no (s : State W) (e : Event) :
  leaves_assembly e = true -> ~ In e (events (createTemplate s)).
Proof.
  intros He Hin. destruct (createTemplate_stays s) as [_ Hall].
  rewrite forallb_forall in Hall. specialize (Hall e Hin).
  rewrite He in Hall. discriminate Hall.
Qed.

(** An upload seen in [createStack] is the upload of the serialized
    template, and it follows the write of the local mirror. *)
Lemma createStack_uploads (s : State W) (u : UploadInput.t) :
  In (EvUpload u) (events (createStack s)) ->
  exists templateBytes post,
    outcome (createTemplate s) = Returned (templateBytes, true) /\
    u = template_upload_input (recv (final (createTemplate s))) templateBytes /\
    events (createStack s) =
      events (createTemplate s) ++
      EvWriteFile CloudFormationTemplatePath templateBytes :: post /\
    In (EvUpload u) post.
Proof.
  rewrite createStack_run. cbv zeta.
  pose proof (assembly_has_no s (EvUpload u) eq_refl) as Hno.
  destruct (outcome (createTemplate s)) as [[templateBytes []]|msg];
    [|intros Hin; contradiction..].
  destruct (WriteFile _ _ _) as [[err|] w2]; cbn [fst snd].
  - cbn [events]. intros Hin. apply in_app_or in Hin as [Hin|Hin]; [contradiction|].
    repeat (destruct Hin as [Hin|Hin]; [discriminate Hin|]). destruct Hin.
  - destruct (Upload _ w2) as [[err|] w3]; cbn [fst snd events]; intros Hin;
      (apply in_app_or in Hin as [Hin|Hin]; [contradiction|]);
      do 2 (destruct Hin as [Hin|Hin]; [discriminate Hin|]);
      (destruct Hin as [Hin|Hin];
       [|repeat (destruct Hin as [Hin|Hin]; [discriminate Hin|]); destruct Hin]);
      injection Hin as <-; eexists _, _; (split; [reflexivity|]);
      (split; [reflexivity|]); (split; [reflexivity|]); cbn; auto.
Qed.

(** [createStack] never panics. *)
Lemma createStack_returns (s : State W) :
  exists stackId ok, outcome (createStack s) = Returned (stackId, ok).
Proof.
  rewrite createStack_run. cbv zeta.
  destruct (createTemplate_stays s) as [(templateBytes & ok & ->) _].
  destruct ok; [|cbn; eauto].
  destruct (WriteFile _ _ _).1; [cbn; eauto|].
  destruct (Upload _ _).1; [cbn; eauto|].
  cbn [outcome]. destruct (cfnAPI _ _ _).1 as [stackId ok]. eauto.
Qed.

End Uploads.

(** ** C8: the local mirror comes first *)

(** C8. In [createStack], an upload is only ever attempted after the
    serialized template, the very bytes uploaded, has been written to
    [constants.CloudFormationTemplatePath]; and when that write fails the
    stage returns failure right after it, so that neither the upload nor
    the dispatch executes. *)
Theorem local_mirror_first {W : Type} `{!Constants} `{!Host W} `{!S3API W}
    `{!TemplateCodec} `{!Collaborators W} (s : State W) :
  let tmpl := createTemplate s in
  let run := createStack s in
  (forall u, In (EvUpload u) (events run) ->
     exists pre post,
       events run =
         pre ++ EvWriteFile CloudFormationTemplatePath (UploadInput.Body u) :: post /\
       forallb (fun e => negb (is_upload e)) pre = true /\
       In (EvUpload u) post) /\
  (forall templateBytes err w2,
     outcome tmpl = Returned (templateBytes, true) ->
     WriteFile CloudFormationTemplatePath templateBytes (world (final tmpl)) = (Some err, w2) ->
     run = MakeRun (Returned ("", false)) (MakeState (recv (final tmpl)) w2)
             (events tmpl ++
              [EvWriteFile CloudFormationTemplatePath templateBytes;
               EvLog LvlError ("Unable to write " +:+ CloudFormationTemplatePath +:+ " file")
                 [("Error", LStr err)]]) /\
     forallb (fun e => negb (is_upload e || is_dispatch e)) (events run) = true).
Proof.
  cbv zeta. split.
  - intros u Hin.
    destruct (createStack_uploads s u Hin) as (templateBytes & post & _ & -> & Hev & Hpost).
    exists (events (createTemplate s)), post. split; [exact Hev|]. split; [|exact Hpost].
    destruct (createTemplate_stays s) as [_ Hall].
    revert Hall. apply forallb_weaken. intros [] Hx; try reflexivity; discriminate Hx.
  - intros templateBytes err w2 Hout Hwrite.
    rewrite createStack_run. cbv zeta. rewrite Hout, Hwrite. cbn [fst snd events].
    split; [reflexivity|].
    rewrite forallb_app. apply andb_true_intro. split; [|reflexivity].
    destruct (createTemplate_stays s) as [_ Hall].
    revert Hall. apply forallb_weaken. intros [] Hx; try reflexivity; discriminate Hx.
Qed.

Lemma local_mirror_first_witness :
  let w := Store.MakeWorld ∅ ∅ None None (Some "disk full") in
  let s := MakeState Examples.svc w in
  let run := createStack (Collaborators0 := Examples.collaborators true true true) s in
  outcome run = Returned ("", false) /\
  forallb (fun e => negb (is_upload e || is_dispatch e)) (events run) = true.
Proof.
  intros w s run.
  destruct (proj2 (local_mirror_first
                     (Collaborators0 := Examples.collaborators true true true) s)
              (bytes_of_string "svc (powered by porter v0)") "disk full" w)
    as [Hrun Hall]; [reflexivity|reflexivity|].
  split; [|exact Hall]. subst run. rewrite Hrun. reflexivity.
Defined.

(** ** C10: server-side encryption *)

(** C10. Whatever the region configures, the upload built by
    [uploadServicePayload] carries neither [SSEKMSKeyId] nor
    [ServerSideEncryption]. The upload built by [createStack] carries the
    region's [SSEKMSKeyId], and [ServerSideEncryption] is [aws:kms] exactly
    when that key is present and unset otherwise. *)
Theorem sse_on_template_only {W : Type} `{!Constants} `{!Host W} `{!S3API W}
    `{!TemplateCodec} `{!Collaborators W} (s : State W) :
  (forall u, In (EvUpload u) (events (uploadServicePayload s)) ->
     UploadInput.SSEKMSKeyId u = None /\ UploadInput.ServerSideEncryption u = None) /\
  (forall u, In (EvUpload u) (events (createStack s)) ->
     let rgn := region (recv (final (createTemplate s))) in
     UploadInput.SSEKMSKeyId u = Region.SSEKMSKeyId rgn /\
     UploadInput.ServerSideEncryption u =
       (if bool_decide (Region.SSEKMSKeyId rgn = None) then None else Some "aws:kms") /\
     (UploadInput.ServerSideEncryption u = Some "aws:kms" <->
      exists keyId, Region.SSEKMSKeyId rgn = Some keyId)).
Proof.
  split.
  - intros u Hin. destruct (staging_uploads s u Hin) as [b ->]. split; reflexivity.
  - intros u Hin. cbv zeta.
    destruct (createStack_uploads s u Hin) as (templateBytes & post & _ & -> & _).
    unfold template_upload_input. cbn [UploadInput.SSEKMSKeyId UploadInput.ServerSideEncryption].
    destruct (Region.SSEKMSKeyId (region (recv (final (createTemplate s))))) as [keyId|].
    + split; [reflexivity|]. split; [reflexivity|]. split; eauto.
    + split; [reflexivity|]. split; [reflexivity|].
      split; [discriminate|]. intros [keyId Hk]; discriminate Hk.
Qed.

(** ** C2: fail-fast propagation in [createUpdateStackForRegion] *)

Section Orchestration.

Context {W Rest : Type}.
Context `{!Constants} `{!Host W} `{!S3API W} `{!TemplateCodec} `{!Collaborators W}.

(** The run of [createUpdateStackForRegion], stage by stage. *)
Lemma createUpdateStackForRegion_run (regionState : provision_state.Region Rest)
    (s : State W) :
  let staging := uploadServicePayload s in
  createUpdateStackForRegion regionState s =
    match outcome staging with
    | Returned (checksum, true) =>
        let secrets := uploadSecrets checksum (recv (final staging)) (world (final staging)) in
        let stack := createStack (after_secrets staging checksum) in
        if secrets.1.1 then
          match outcome stack with
          | Returned (stackId, true) =>
              MakeRun
                (Returned (true, provision_state.MakeRegion stackId
                                   (provision_state.rest regionState)))
                (final stack) (events staging ++ EvUploadSecrets checksum :: events stack)
          | Returned (_, false) =>
              MakeRun (Returned (false, regionState)) (final stack)
                (events staging ++ EvUploadSecrets checksum :: events stack)
          | Panicked msg =>
              MakeRun (Panicked msg) (final stack)
                (events staging ++ EvUploadSecrets checksum :: events stack)
          end
        else
          MakeRun (Returned (false, regionState)) (after_secrets staging checksum)
            (events staging ++ [EvUploadSecrets checksum])
    | Returned (_, false) => MakeRun (Returned (false, regionState)) (final staging) (events staging)
    | Panicked msg => MakeRun (Panicked msg) (final staging) (events staging)
    end.
Proof.
  cbv zeta. unfold createUpdateStackForRegion, after_secrets. unfold_go.
  destruct (uploadServicePayload s) as [[[checksum []]|msg] s1 evs];
    cbn [outcome final events fst snd negb]; [| now rewrite app_nil_r | reflexivity].
  destruct (uploadSecrets checksum (recv s1) (world s1)) as [[[] r2] w2];
    cbn [fst snd negb]; [|reflexivity].
  destruct (createStack (MakeState r2 w2)) as [[[stackId []]|msg] s3 evs3];
    cbn [outcome final events fst snd negb]; rewrite ?app_nil_r; reflexivity.
Qed.

End Orchestration.

(** C2. If artifact staging fails, [createUpdateStackForRegion] returns
    false with the region state as it was, and its run is the run of
    staging alone (same final state, same events): secrets staging,
    template work and dispatch never execute. In every run the result is
    returned (no panic); a false result leaves the region state unchanged,
    and a true result means that all three stages succeeded and that
    [StackId] holds the identifier returned by [createStack]. *)
Theorem fail_fast {W Rest : Type} `{!Constants} `{!Host W} `{!S3API W}
    `{!TemplateCodec} `{!Collaborators W}
    (regionState : provision_state.Region Rest) (s : State W) :
  let staging := uploadServicePayload s in
  let run := createUpdateStackForRegion regionState s in
  (succeeded (outcome staging) = false ->
   run = MakeRun (Returned (false, regionState)) (final staging) (events staging) /\
   forallb (fun e => negb (after_staging e)) (events run) = true) /\
  (exists ok regionState',
     outcome run = Returned (ok, regionState') /\
     (ok = false -> regionState' = regionState) /\
     (ok = true ->
      exists checksum stackId,
        outcome staging = Returned (checksum, true) /\
        (uploadSecrets checksum (recv (final staging)) (world (final staging))).1.1 = true /\
        outcome (createStack (after_secrets staging checksum)) = Returned (stackId, true) /\
        regionState' =
          provision_state.MakeRegion stackId (provision_state.rest regionState))).
Proof.
  cbv zeta. rewrite createUpdateStackForRegion_run. cbv zeta.
  pose proof (staging_events s) as Hev.
  destruct (staging_returns s) as (checksum & ok & Hout). rewrite Hout.
  destruct ok; cbn [succeeded].
  - split; [discriminate|].
    destruct (uploadSecrets checksum _ _).1.1 eqn:Hsec.
    + destruct (createStack_returns (after_secrets (uploadServicePayload s) checksum))
        as (stackId & ok & Hstack).
      rewrite Hstack. destruct ok; cbn [outcome].
      * eexists _, _. split; [reflexivity|]. split; [discriminate|].
        intros _. exists checksum, stackId. auto.
      * eexists _, _. split; [reflexivity|]. split; [reflexivity|discriminate].
    + cbn [outcome]. eexists _, _. split; [reflexivity|]. split; [reflexivity|discriminate].
  - split.
    + intros _. split; [reflexivity|exact Hev].
    + cbn [outcome]. eexists _, _. split; [reflexivity|]. split; [reflexivity|discriminate].
Qed.

Lemma fail_fast_witness :
  let s := MakeState Examples.svc Examples.empty_world in
  let regionState := provision_state.MakeRegion "stack-0" tt in
  let run :=
    createUpdateStackForRegion (Collaborators0 := Examples.collaborators true true true)
      regionState s in
  succeeded (outcome (uploadServicePayload s)) = false /\
  run = MakeRun (Returned (false, regionState)) (final (uploadServicePayload s))
          (events (uploadServicePayload s)) /\
  forallb (fun e => negb (after_staging e)) (events run) = true.
Proof.
  intros s regionState run. split; [reflexivity|].
  apply (fail_fast (Collaborators0 := Examples.collaborators true true true) regionState s).
  reflexivity.
Defined.

(** * Further properties of the pipeline *)

(** Every path through [uploadServicePayload], with the run rewritten to
    its events, outcome and final state. *)
Ltac staging_paths s :=
  let b := fresh "b" in
  let w1 := fresh "w1" in
  let Hread := fresh "Hread" in
  destruct (ReadFile PayloadPath (world s)) as [[b|?err] w1] eqn:Hread;
  [ staging_cases s b w1 Hread;
    [ | match goal with
        | |- context [match ?u with Some _ => _ | None => _ end] => destruct u
        end
      | match goal with
        | |- context [Contains ?e "403"] => destruct (Contains e "403")
        end ]
  | rewrite (staging_unreadable s _ w1 Hread) ];
  cbn [events outcome final recv world app].

(** The world a staging run leaves is the one in which [rm -rf] ran. *)
Lemma staging_ends_with_rm {W : Type} `{!Constants} `{!Host W} `{!S3API W} (s : State W) :
  exists w, world (final (uploadServicePayload s)) = rm_rf PayloadPath w.
Proof. staging_paths s; eauto. Qed.

(** ** The deferred removal of the payload *)

(** X1. On every path [uploadServicePayload] starts by reading the payload
    file and ends by removing it, exactly once: the deferred [rm -rf] runs
    whether the stage succeeded, failed or uploaded. *)
Theorem payload_always_removed {W : Type} `{!Constants} `{!Host W} `{!S3API W}
    (s : State W) :
  let run := uploadServicePayload s in
  hd_error (events run) = Some (EvReadFile PayloadPath) /\
  last (events run) = Some (EvRm PayloadPath) /\
  List.filter is_rm (events run) = [EvRm PayloadPath] /\
  exists w, world (final run) = rm_rf PayloadPath w.
Proof.
  cbv zeta. staging_paths s; repeat split; eauto.
Qed.

Lemma payload_removed_in_store `{!Constants} (s : State Store.World) :
  let w := world (final (uploadServicePayload s)) in
  Store.files w !! PayloadPath = None /\
  ReadFile PayloadPath w =
    (inr ("open " +:+ PayloadPath +:+ ": no such file or directory"), w).
Proof.
  cbv zeta. destruct (staging_ends_with_rm s) as (w & ->).
  assert (Hnone : Store.files (rm_rf PayloadPath w) !! PayloadPath = None).
  { cbn. apply lookup_delete_eq. }
  split; [exact Hnone|]. cbn [ReadFile Store.host]. unfold Store.read. now rewrite Hnone.
Qed.

(** X2. Since the payload file is removed, a second call that follows at
    once, with nothing staged in between, cannot read it: in the store it
    fails before any S3 call and leaves receiver and buckets as they are. *)
Theorem second_call_needs_restaging `{!Constants} (s : State Store.World) :
  let first := uploadServicePayload s in
  let second := uploadServicePayload (final first) in
  Store.files (world (final first)) !! PayloadPath = None /\
  outcome second = Returned ("", false) /\
  events second =
    [EvReadFile PayloadPath;
     EvLog LvlError "ReadFile payload"
       [("Error", LStr ("open " +:+ PayloadPath +:+ ": no such file or directory"))];
     EvRm PayloadPath] /\
  recv (final second) = recv (final first) /\
  Store.objects (world (final second)) = Store.objects (world (final first)).
Proof.
  cbv zeta.
  destruct (payload_removed_in_store s) as [Hnone Hread]. split; [exact Hnone|].
  rewrite (staging_unreadable _ _ _ Hread). cbn [outcome events final recv world].
  repeat split.
Qed.

(** ** What the stage returns and records *)

(** X3. [uploadServicePayload] returns the empty checksum exactly when the
    payload file could not be read. Once the file is read, the returned
    checksum is the 64-digit digest on every path, also when the stage then
    fails at the probe or at the upload. *)
Theorem checksum_empty_iff_unreadable {W : Type} `{!Constants} `{!Host W} `{!S3API W}
    (s : State W) :
  exists checksum ok,
    outcome (uploadServicePayload s) = Returned (checksum, ok) /\
    (checksum = "" <-> exists err, (ReadFile PayloadPath (world s)).1 = inr err) /\
    (forall b, (ReadFile PayloadPath (world s)).1 = inl b ->
               checksum = hex.EncodeToString (sha256.Sum256 b) /\
               String.length checksum = 64%nat) /\
    (ok = true -> String.length checksum = 64%nat).
Proof.
  assert (Hlen : forall b, String.length (hex.EncodeToString (sha256.Sum256 b)) = 64%nat).
  { intros b. now rewrite EncodeToString_length, Sum256_length. }
  assert (Hne : forall b, hex.EncodeToString (sha256.Sum256 b) = "" -> False).
  { intros b Hb. specialize (Hlen b). rewrite Hb in Hlen. discriminate Hlen. }
  staging_paths s; eexists _, _; (split; [reflexivity|]); cbn [fst].
  all: split;
    [ first [ split; [intros Hb; exfalso; eapply Hne; exact Hb
                     |intros [? Hx]; discriminate Hx]
            | split; eauto ] | ].
  all: split; [intros ? Hx; (discriminate Hx || (injection Hx as <-; auto))|].
  all: try (intros _; apply Hlen). 
  all: discriminate.
Qed.

(** X4. [uploadServicePayload] writes two fields of the receiver only,
    [servicePayloadKey] and [servicePayloadChecksum]; configuration,
    environment, region, secrets fields and dispatch strategy stay as they
    were, and when the payload is unreadable the receiver is untouched. *)
Theorem staging_receiver_frame {W : Type} `{!Constants} `{!Host W} `{!S3API W}
    (s : State W) :
  let r := recv (final (uploadServicePayload s)) in
  config r = config (recv s) /\
  environment r = environment (recv s) /\
  region r = region (recv s) /\
  secretsKey r = secretsKey (recv s) /\
  secretsLocation r = secretsLocation (recv s) /\
  cfnAPI r = cfnAPI (recv s) /\
  ((exists err, (ReadFile PayloadPath (world s)).1 = inr err) -> r = recv s) /\
  (forall b, (ReadFile PayloadPath (world s)).1 = inl b ->
             servicePayloadChecksum r = hex.EncodeToString (sha256.Sum256 b) /\
             servicePayloadKey r = key_of (recv s) b).
Proof.
  cbv zeta. staging_paths s; cbn [fst]; do 6 (split; [reflexivity|]).
  all: split; [intros [? Hx]; first [discriminate Hx | reflexivity]|].
  all: intros ? Hx; first [discriminate Hx | injection Hx as <-; split; reflexivity].
Qed.

(** ** The probe and the upload *)

(** X5. A probe that succeeds without a usable length does not count as
    staged: when [ContentLength] is nil, zero or negative the payload is
    uploaded, and the stage succeeds exactly when that upload does. *)
Theorem probe_without_length_uploads {W : Type} `{!Constants} `{!Host W} `{!S3API W}
    (s : State W) (b : bytes) (w1 : W) (out : HeadObjectOutput.t) (w2 : W) :
  ReadFile PayloadPath (world s) = (inl b, w1) ->
  HeadObject (probe_input (recv s) b) w1 = (inl out, w2) ->
  (forall n, HeadObjectOutput.ContentLength out = Some n -> n <= 0) ->
  let run := uploadServicePayload s in
  let input := payload_upload_input (recv s) b in
  uploads (events run) = [EvUpload input] /\
  succeeded (outcome run) = bool_decide ((Upload input w2).1 = None) /\
  world (final run) = rm_rf PayloadPath (Upload input w2).2.
Proof.
  intros Hread Hhead Hlen. cbv zeta.
  assert (Hc : classify (inl out) = ProceedToUpload).
  { unfold classify. destruct (HeadObjectOutput.ContentLength out) as [n|]; [|reflexivity].
    specialize (Hlen n eq_refl). destruct (Z.ltb_spec 0 n); [lia|reflexivity]. }
  destruct (Upload (payload_upload_input (recv s) b) w2) as [uerr w3] eqn:Hup.
  rewrite (staging_upload s b w1 (inl out) w2 uerr w3 Hread Hhead Hc Hup).
  cbn [events outcome final world succeeded fst snd]. destruct uerr; repeat split.
Qed.

Lemma probe_without_length_uploads_witness :
  let b := bytes_of_string "abc" in
  let w := Store.MakeWorld {[ PayloadPath := b ]} {[ object_of Examples.svc b := [] ]}
             None None None in
  let run := uploadServicePayload (MakeState Examples.svc w) in
  (HeadObject (probe_input Examples.svc b) w).1 = inl (HeadObjectOutput.Make (Some 0)) /\
  uploads (events run) = [EvUpload (payload_upload_input Examples.svc b)].
Proof.
  intros b w run.
  assert (Hhead : HeadObject (probe_input Examples.svc b) w =
                  (inl (HeadObjectOutput.Make (Some 0)), w)).
  { unfold w, probe_input, object_of.
    cbn [HeadObject Store.s3 Store.head_fault Store.objects
         HeadObjectInput.Bucket HeadObjectInput.Key].
    now rewrite lookup_singleton_eq. }
  split; [now rewrite Hhead|].
  apply (probe_without_length_uploads (MakeState Examples.svc w) b w
           (HeadObjectOutput.Make (Some 0)) w).
  - reflexivity.
  - exact Hhead.
  - intros n Hn. injection Hn as <-. lia.
Defined.

(** X6. In one run [uploadServicePayload] probes at most once and uploads at
    most once, and an upload always comes after the probe of the very
    bucket and key it writes to. *)
Theorem probe_precedes_upload {W : Type} `{!Constants} `{!Host W} `{!S3API W}
    (s : State W) :
  let run := uploadServicePayload s in
  (length (List.filter is_probe (events run)) <= 1)%nat /\
  (length (uploads (events run)) <= 1)%nat /\
  (forall u, In (EvUpload u) (events run) ->
     exists pre post,
       events run =
         pre ++ EvHeadObject (HeadObjectInput.Make (UploadInput.Bucket u) (UploadInput.Key u))
             :: post /\
       In (EvUpload u) post).
Proof.
  cbv zeta. staging_paths s; (split; [cbn; lia|]); (split; [cbn; lia|]); intros u Hin;
    repeat (destruct Hin as [Hin|Hin]; [try discriminate Hin|]); try contradiction.
  all: injection Hin as <-; eexists [_], _; split; [reflexivity|cbn; auto].
Qed.

(** X7. Uploads are content-addressed: in [uploadServicePayload] and in
    [createStack] alike, the key of every upload ends in the SHA-256 digest
    of the very body that is uploaded, under the receiver's deployment or
    template root, in the region's bucket. *)
Theorem uploads_content_addressed {W : Type} `{!Constants} `{!Host W} `{!S3API W}
    `{!TemplateCodec} `{!Collaborators W} (s : State W) :
  (forall u, In (EvUpload u) (events (uploadServicePayload s)) ->
     UploadInput.Bucket u = Region.S3Bucket (region (recv s)) /\
     s3KeyRoot (recv s) s3KeyOptDeployment =
       Returned ("porter-deployment/" +:+ Config.ServiceName (config (recv s)) +:+ "/" +:+
                 Environment.Name (environment (recv s)) +:+ "/" +:+
                 Config.ServiceVersion (config (recv s))) /\
     UploadInput.Key u =
       "porter-deployment/" +:+ Config.ServiceName (config (recv s)) +:+ "/" +:+
       Environment.Name (environment (recv s)) +:+ "/" +:+
       Config.ServiceVersion (config (recv s)) +:+ "/" +:+
       hex.EncodeToString (sha256.Sum256 (UploadInput.Body u)) +:+ ".tar") /\
  (forall u, In (EvUpload u) (events (createStack s)) ->
     let r := recv (final (createTemplate s)) in
     UploadInput.Bucket u = Region.S3Bucket (region r) /\
     s3KeyRoot r s3KeyOptTemplate =
       Returned ("porter-template/" +:+ Config.ServiceName (config r) +:+ "/" +:+
                 Environment.Name (environment r) +:+ "/" +:+
                 Config.ServiceVersion (config r)) /\
     UploadInput.Key u =
       "porter-template/" +:+ Config.ServiceName (config r) +:+ "/" +:+
       Environment.Name (environment r) +:+ "/" +:+
       Config.ServiceVersion (config r) +:+ "/" +:+
       hex.EncodeToString (sha256.Sum256 (UploadInput.Body u))).
Proof.
  split.
  - intros u Hin. destruct (staging_uploads s u Hin) as [b ->].
    repeat split.
  - intros u Hin. cbv zeta.
    destruct (createStack_uploads s u Hin) as (templateBytes & post & _ & -> & _).
    split; [reflexivity|]. split; [reflexivity|].
    unfold template_upload_input, template_key.
    cbn [UploadInput.Key UploadInput.Body]. rewrite !append_assoc. reflexivity.
Qed.

(** ** Staging in the store *)

(** X8. In the store, a staging run deletes the payload file and nothing else
    of the local files; it leaves the buckets as they were or writes the
    payload bytes under the derived key, no other object is touched; and
    when it reports success the derived key holds an object. *)
Theorem staging_store_frame `{!Constants} (s : State Store.World) :
  let run := uploadServicePayload s in
  let before := world s in
  let after := world (final run) in
  Store.files after = delete PayloadPath (Store.files before) /\
  (Store.objects after = Store.objects before \/
   exists b, Store.files before !! PayloadPath = Some b /\
             uploads (events run) = [EvUpload (payload_upload_input (recv s) b)] /\
             Store.objects after = <[object_of (recv s) b := b]> (Store.objects before)) /\
  (succeeded (outcome run) = true ->
   exists b body, Store.files before !! PayloadPath = Some b /\
                  Store.objects after !! object_of (recv s) b = Some body).
Proof.
  cbv zeta.
  destruct (Store.files (world s) !! PayloadPath) as [b|] eqn:Hfile.
  - pose proof (store_read _ _ Hfile) as Hread.
    staging_cases s b (world s) Hread; cbn [outcome final events recv world succeeded].
    + cbn in Hhead.
      destruct (Store.head_fault (world s)) as [err|].
      { injection Hhead as <- <-. cbn in Hc. destruct (Contains err "404"); discriminate. }
      destruct (Store.objects (world s) !! _) as [body|] eqn:E;
        injection Hhead as <- <-; [|discriminate Hc].
      split; [reflexivity|]. split; [left; reflexivity|].
      intros _. exists b, body. split; [reflexivity|exact E].
    + assert (Hw2 : w2 = world s).
      { cbn in Hhead. destruct (Store.head_fault (world s));
          [|destruct (Store.objects (world s) !! _)]; now injection Hhead. }
      subst w2. cbn in Hup.
      destruct (Store.upload_fault (world s)) as [err|]; injection Hup as <- <-.
      * split; [reflexivity|]. split; [left; reflexivity|]. discriminate.
      * split; [reflexivity|]. split.
        { right. exists b. repeat split. }
        intros _. exists b, b. split; [reflexivity|]. cbn. apply lookup_insert_eq.
    + assert (Hw2 : w2 = world s).
      { cbn in Hhead. destruct (Store.head_fault (world s));
          [|destruct (Store.objects (world s) !! _)]; now injection Hhead. }
      subst w2. split; [reflexivity|]. split; [left; reflexivity|]. discriminate.
  - assert (Hread : ReadFile PayloadPath (world s) =
                      (inr ("open " +:+ PayloadPath +:+ ": no such file or directory"), world s)).
    { cbn [ReadFile Store.host]. unfold Store.read. now rewrite Hfile. }
    rewrite (staging_unreadable s _ _ Hread). cbn [outcome final events recv world succeeded].
    split; [reflexivity|]. split; [left; reflexivity|]. discriminate.
Qed.

(** ** The two namespaces *)

(** X9. The roots that [s3KeyRoot] returns for the template flag and for the
    deployment flag never yield the same key, whatever the receivers and
    whatever is appended: a template key is never a deployment key. *)
Theorem namespaces_disjoint {W : Type} (r r' : stackCreator W) :
  exists template deployment,
    s3KeyRoot r s3KeyOptTemplate = Returned template /\
    s3KeyRoot r' s3KeyOptDeployment = Returned deployment /\
    (forall x y, String.eqb (template +:+ x) (deployment +:+ y) = false) /\
    (forall templateBytes b,
       String.eqb (template_key r templateBytes) (key_of r' b) = false).
Proof.
  eexists _, _. split; [reflexivity|]. split; [reflexivity|].
  split; intros; reflexivity.
Qed.

(** ** Template assembly: [createTemplate] *)

(** Every path through [createTemplate], with the run computed. *)
Ltac assembly_paths st :=
  unfold createTemplate; unfold_go; simpl;
  destruct (Environment.GetStackDefinitionPath (environment (recv st))
              (Region.Name (region (recv st)))) as [?path|?err] eqn:?Hpath; simpl;
  [ destruct (String.eqb _ "") eqn:?Hempty; simpl;
    [ idtac
    | destruct (Open _ (world st)) as [[?doc|?err] ?w] eqn:?Hopen; simpl;
      [ destruct (Decode _ cfn.NewTemplate) as [?t|?err] eqn:?Hdecode; simpl | ] ]
  | ];
  try match goal with
      | |- context [mutateTemplate ?tpl ?st'] =>
          rewrite (mutateTemplate_run st' tpl); cbv zeta;
          destruct (ensureResources (described (recv st') tpl) (recv st') (world st'))
            as [[[[] ?t] ?r] ?w] eqn:?Hensure; cbn [fst snd];
          [destruct (mapResources _ _ _) as [[[[] ?t] ?r] ?w] eqn:?Hmap; cbn [fst snd]|];
          simpl; try (destruct (Marshal _) eqn:?Hmarshal; simpl)
      end.

(** [createTemplate] performs template work only. *)
Lemma createTemplate_events_only {W : Type} `{!Constants} `{!Host W} `{!TemplateCodec}
    `{!Collaborators W} (s : State W) :
  forallb assembly_event (events (createTemplate s)) = true.
Proof. assembly_paths s; reflexivity. Qed.


(** X11. A readable, decodable override document is what the assembly works
    on: the file named by the override path is opened and decoded into the
    empty template, [ParseResources] receives the decoded template, and
    [mutateTemplate] runs on its expansion in the world that [Open] left,
    with the receiver unchanged, so that [ensureResources] sees the
    resources of the override under the porter description. On success the
    only step after the mutation is [json.Marshal] of the mutated template,
    whose output is returned. *)
Theorem override_is_assembled {W : Type} `{!Constants} `{!Host W} `{!TemplateCodec}
    `{!Collaborators W} (s : State W) (path : string) (doc : bytes) (w' : W)
    (t : cfn.Template) :
  let rgn := Region.Name (region (recv s)) in
  Environment.GetStackDefinitionPath (environment (recv s)) rgn = inl path ->
  path <> "" ->
  Open path (world s) = (inl doc, w') ->
  Decode doc cfn.NewTemplate = inl t ->
  let first := described (recv s) (ParseResources t) in
  let mutation := mutateTemplate (ParseResources t) (MakeState (recv s) w') in
  exists tail,
    events (createTemplate s) =
      [EvGetStackDefinitionPath rgn;
       EvLog LvlInfo "Using custom stack definition" [("Path", LStr path)];
       EvOpen path;
       EvDecode doc;
       EvParseResources t] ++ events mutation ++ tail /\
    hd_error (events mutation) = Some (EvEnsureResources first) /\
    cfn.Resources first = cfn.Resources (ParseResources t) /\
    (succeeded (outcome (createTemplate s)) = true ->
     exists mapped templateBytes,
       outcome mutation = Returned (true, mapped) /\
       tail = [EvMarshal mapped] /\
       Marshal mapped = inl templateBytes /\
       createTemplate s =
         MakeRun (Returned (templateBytes, true)) (final mutation)
           ([EvGetStackDefinitionPath rgn;
             EvLog LvlInfo "Using custom stack definition" [("Path", LStr path)];
             EvOpen path;
             EvDecode doc;
             EvParseResources t] ++ events mutation ++ [EvMarshal mapped])).
Proof.
  intros rgn Hpath Hne Hopen Hdecode. cbv zeta. subst rgn.
  unfold createTemplate. unfold_go. simpl. rewrite Hpath. simpl.
  destruct (String.eqb_spec path ""); [contradiction|]. simpl.
  rewrite Hopen. simpl. rewrite Hdecode. simpl.
  rewrite (mutateTemplate_run (MakeState (recv s) w') (ParseResources t)). cbv zeta.
  cbn [recv world].
  destruct (ensureResources (described (recv s) (ParseResources t)) (recv s) w')
    as [[[[] t1] r1] w1]; cbn [fst snd].
  - destruct (mapResources t1 r1 w1) as [[[[] t2] r2] w2]; cbn [fst snd]; simpl.
    + destruct (Marshal t2) eqn:Hmarshal; simpl.
      * eexists [_]. split; [reflexivity|]. split; [reflexivity|]. split; [reflexivity|].
        intros _. eexists _, _. repeat split. exact Hmarshal.
      * eexists [_; _]. split; [reflexivity|]. split; [reflexivity|].
        split; [reflexivity|]. discriminate.
    + exists []. split; [reflexivity|]. split; [reflexivity|]. split; [reflexivity|].
      discriminate.
  - simpl. exists []. split; [reflexivity|]. split; [reflexivity|]. split; [reflexivity|].
    discriminate.
Qed.

Lemma override_is_assembled_witness :
  let r := Examples.creator "svc" "1.0" "prod" (inl "stack.json") None in
  let doc := bytes_of_string "custom" in
  let w := Store.MakeWorld {[ "stack.json" := doc ]} ∅ None None None in
  let s := MakeState r w in
  let t := cfn.MakeTemplate "custom" ∅ in
  exists evs,
    events (createTemplate (Collaborators0 := Examples.collaborators true true true) s) =
      [EvGetStackDefinitionPath "us-west-2";
       EvLog LvlInfo "Using custom stack definition" [("Path", LStr "stack.json")];
       EvOpen "stack.json";
       EvDecode doc;
       EvParseResources t] ++
      events (mutateTemplate (Collaborators0 := Examples.collaborators true true true)
                (ParseResources t) (MakeState r w)) ++ evs.
Proof.
  intros r doc w s t.
  destruct (override_is_assembled (Collaborators0 := Examples.collaborators true true true)
              s "stack.json" doc w t) as (evs & Hev & _).
  - reflexivity.
  - discriminate.
  - unfold s, w. cbn [world Open Store.host]. unfold Store.read. cbn [Store.files].
    now rewrite lookup_singleton_eq.
  - reflexivity.
  - exists evs. exact Hev.
Defined.

(** X12. When the environment cannot name a stack definition for the region,
    [createTemplate] fails after logging the error, and [createStack]
    returns the empty stack id with failure: the state is unchanged and
    nothing is opened, expanded, written, uploaded or dispatched. *)
Theorem definition_path_error {W : Type} `{!Constants} `{!Host W} `{!S3API W}
    `{!TemplateCodec} `{!Collaborators W} (s : State W) (err : error) :
  let rgn := Region.Name (region (recv s)) in
  Environment.GetStackDefinitionPath (environment (recv s)) rgn = inr err ->
  let evs := [EvGetStackDefinitionPath rgn;
              EvLog LvlError "GetStackDefinitionPath" [("Error", LStr err)]] in
  createTemplate s = MakeRun (Returned ([], false)) s evs /\
  createStack s = MakeRun (Returned ("", false)) s evs.
Proof.
  intros rgn Hpath evs. subst rgn evs.
  assert (Htmpl : createTemplate s =
                  MakeRun (Returned ([], false)) s
                    [EvGetStackDefinitionPath (Region.Name (region (recv s)));
                     EvLog LvlError "GetStackDefinitionPath" [("Error", LStr err)]]).
  { unfold createTemplate. unfold_go. simpl. rewrite Hpath. destruct s. reflexivity. }
  split; [exact Htmpl|].
  rewrite createStack_run. cbv zeta. rewrite Htmpl. reflexivity.
Qed.

Lemma definition_path_error_witness :
  let r := Examples.creator "svc" "1.0" "prod" (inr "no stack for region") None in
  let s := MakeState r Examples.empty_world in
  createStack (Collaborators0 := Examples.collaborators true true true) s =
    MakeRun (Returned ("", false)) s
      [EvGetStackDefinitionPath "us-west-2";
       EvLog LvlError "GetStackDefinitionPath" [("Error", LStr "no stack for region")]].
Proof.
  intros r s.
  apply (definition_path_error (Collaborators0 := Examples.collaborators true true true)
           s "no stack for region").
  reflexivity.
Defined.

(** ** Template staging and dispatch, continued *)


Lemma last_app_cons {A} (l l' : list A) (x : A) : last (l ++ l' ++ [x]) = Some x.
Proof. rewrite app_assoc. apply last_snoc. Qed.

(** Every path through [createStack], after the run of [createTemplate]. *)
Ltac stack_paths s :=
  let templateBytes := fresh "templateBytes" in
  let ok := fresh "ok" in
  let Hout := fresh "Hout" in
  rewrite !createStack_run; cbv zeta;
  destruct (createTemplate_stays s) as [(templateBytes & ok & Hout) _];
  rewrite !Hout; destruct ok;
  [ destruct (WriteFile CloudFormationTemplatePath templateBytes
                (world (final (createTemplate s)))) as [[?werr|] ?w2] eqn:?Hwrite;
    cbn [fst snd];
    [ | destruct (Upload _ w2) as [[?uerr|] ?w3] eqn:?Hup; cbn [fst snd] ]
  | ];
  cbn [events outcome final recv world].


(** X14. The dispatch points at the template just uploaded: whenever
    [createStack] calls the CloudFormation API, the template was assembled,
    mirrored and uploaded without error just before, the [TemplateUrl] it
    passes is [https://s3.amazonaws.com/<bucket>/<key>] for the bucket and
    key of that upload, the other inputs are the receiver's environment,
    region and secrets fields, and what the API returns is returned. *)
Theorem dispatch_points_at_upload {W : Type} `{!Constants} `{!Host W} `{!S3API W}
    `{!TemplateCodec} `{!Collaborators W} (s : State W) (p : CfnApiInput.t) :
  In (EvCfnAPI p) (events (createStack s)) ->
  let tmpl := createTemplate s in
  let r := recv (final tmpl) in
  exists templateBytes u w2 w3,
    outcome tmpl = Returned (templateBytes, true) /\
    WriteFile CloudFormationTemplatePath templateBytes (world (final tmpl)) = (None, w2) /\
    Upload u w2 = (None, w3) /\
    UploadInput.Body u = templateBytes /\
    events (createStack s) =
      events tmpl ++
      [EvWriteFile CloudFormationTemplatePath templateBytes;
       uploading_template r templateBytes; EvUpload u; EvCfnAPI p] /\
    CfnApiInput.TemplateUrl p =
      "https://s3.amazonaws.com/" +:+ UploadInput.Bucket u +:+ "/" +:+ UploadInput.Key u /\
    CfnApiInput.Environment p = Environment.Name (environment r) /\
    CfnApiInput.Region p = Region.Name (region r) /\
    CfnApiInput.SecretsKey p = secretsKey r /\
    CfnApiInput.SecretsLoc p = secretsLocation r /\
    outcome (createStack s) = Returned (cfnAPI r p w3).1 /\
    final (createStack s) = MakeState r (cfnAPI r p w3).2.
Proof.
  cbv zeta.
  assert (Hno : ~ In (EvCfnAPI p) (events (createTemplate s))).
  { apply assembly_has_no. reflexivity. }
  stack_paths s; intros Hin; try contradiction;
    (apply in_app_or in Hin as [Hin|Hin]; [contradiction|]).
  - repeat (destruct Hin as [Hin|Hin]; [discriminate Hin|]). destruct Hin.
  - repeat (destruct Hin as [Hin|Hin]; [discriminate Hin|]). destruct Hin.
  - do 3 (destruct Hin as [Hin|Hin]; [discriminate Hin|]).
    destruct Hin as [Hin|[]]. injection Hin as <-.
    eexists _, _, _, _. split; [reflexivity|]. split; [exact Hwrite|].
    split; [exact Hup|]. repeat split.
Qed.

Lemma dispatch_points_at_upload_witness :
  let s := MakeState Examples.svc Examples.empty_world in
  let templateBytes := bytes_of_string "svc (powered by porter v0)" in
  let p := dispatch_params Examples.svc templateBytes in
  let run := createStack (Collaborators0 := Examples.collaborators true true true) s in
  CfnApiInput.TemplateUrl p =
    "https://s3.amazonaws.com/bucket/porter-template/svc/prod/1.0/" +:+
    hex.EncodeToString (sha256.Sum256 templateBytes) /\
  outcome run = Returned ("stack-123", true).
Proof.
  intros s templateBytes p run.
  split; [reflexivity|].
  destruct (dispatch_points_at_upload
              (Collaborators0 := Examples.collaborators true true true) s p)
    as (tb & u & w2 & w3 & _ & _ & _ & _ & _ & _ & _ & _ & _ & _ & Hout & _).
  - rewrite createStack_run. cbv zeta.
    assert (Htmpl : outcome (createTemplate
                               (Collaborators0 := Examples.collaborators true true true) s) =
                    Returned (templateBytes, true)) by reflexivity.
    rewrite Htmpl.
    set (written := WriteFile _ _ _).
    assert (Hwritten : written.1 = None) by reflexivity. rewrite Hwritten.
    set (uploaded := Upload _ _).
    assert (Huploaded : uploaded.1 = None) by reflexivity. rewrite Huploaded.
    cbn [events]. apply in_or_app. right. do 3 right. left. reflexivity.
  - subst run. rewrite Hout. reflexivity.
Defined.


(** X16. In the store, a run of [createStack] that reaches the dispatch hands
    the CloudFormation API a world in which the local mirror file and the
    S3 object under the template key both hold the serialized template,
    every other file and object being as template assembly left it. When
    the upload fails instead, the mirror file is left behind with the
    template in it and the buckets are untouched. *)
Theorem template_mirrored_and_stored `{!Constants} `{!TemplateCodec}
    `{!Collaborators Store.World} (s : State Store.World) (templateBytes : bytes) :
  let tmpl := createTemplate s in
  let run := createStack s in
  let r := recv (final tmpl) in
  let w := world (final tmpl) in
  outcome tmpl = Returned (templateBytes, true) ->
  Store.write_fault w = None ->
  let mirrored := <[CloudFormationTemplatePath := templateBytes]> (Store.files w) in
  let stored := <[template_object_of r templateBytes := templateBytes]> (Store.objects w) in
  (Store.upload_fault w = None ->
   let handed := Store.set_objects stored (Store.set_files mirrored w) in
   run = MakeRun (Returned (cfnAPI r (dispatch_params r templateBytes) handed).1)
           (MakeState r (cfnAPI r (dispatch_params r templateBytes) handed).2)
           (events tmpl ++
            [EvWriteFile CloudFormationTemplatePath templateBytes;
             uploading_template r templateBytes;
             EvUpload (template_upload_input r templateBytes);
             EvCfnAPI (dispatch_params r templateBytes)]) /\
   Store.files handed !! CloudFormationTemplatePath = Some templateBytes /\
   Store.objects handed !! template_object_of r templateBytes = Some templateBytes /\
   (forall path, path <> CloudFormationTemplatePath ->
                 Store.files handed !! path = Store.files w !! path) /\
   (forall o, o <> template_object_of r templateBytes ->
              Store.objects handed !! o = Store.objects w !! o)) /\
  (forall err, Store.upload_fault w = Some err ->
   outcome run = Returned ("", false) /\
   Store.files (world (final run)) = mirrored /\
   Store.objects (world (final run)) = Store.objects w).
Proof.
  intros tmpl run r w Hout Hwf mirrored stored.
  subst run. rewrite createStack_run. cbv zeta. fold tmpl. rewrite Hout. fold r w.
  cbn [WriteFile Store.host]. rewrite Hwf. cbn [fst snd].
  cbn [Upload Store.s3 Store.upload_fault Store.set_files].
  split.
  - intros Huf. rewrite Huf. cbn [fst snd]. cbv zeta.
    split; [reflexivity|].
    split; [cbn; apply lookup_insert_eq|].
    split; [cbn; apply lookup_insert_eq|].
    split.
    + intros path Hne. cbn. apply lookup_insert_ne. congruence.
    + intros o Hne. cbn. apply lookup_insert_ne. congruence.
  - intros err Huf. rewrite Huf. cbn [fst snd outcome final world].
    repeat split.
Qed.

Lemma template_mirrored_and_stored_witness :
  let s := MakeState Examples.svc Examples.empty_world in
  let templateBytes := bytes_of_string "svc (powered by porter v0)" in
  let after :=
    world (final (createStack (Collaborators0 := Examples.collaborators true true true) s)) in
  Store.files after !! CloudFormationTemplatePath = Some templateBytes /\
  Store.objects after !! template_object_of Examples.svc templateBytes = Some templateBytes.
Proof.
  intros s templateBytes after.
  destruct (template_mirrored_and_stored
              (Collaborators0 := Examples.collaborators true true true) s templateBytes)
    as [Hdone _]; [reflexivity|reflexivity|].
  destruct Hdone as (Hrun & Hfile & Hobject & _); [reflexivity|].
  subst after. rewrite Hrun. cbn [final world cfnAPI Examples.svc Examples.creator snd].
  split; [exact Hfile|exact Hobject].
Defined.

(** ** The pipeline: [createUpdateStackForRegion], continued *)

Lemma filter_none {A} (p : A -> bool) (l : list A) :
  forallb (fun x => negb (p x)) l = true -> List.filter p l = [].
Proof.
  induction l as [|x l IH]; [reflexivity|].
  cbn [forallb List.filter]. intros Hall. apply andb_prop in Hall as [Hx Hl].
  destruct (p x); [discriminate Hx|auto].
Qed.

(** A successful staging read the payload and returns its digest. *)
Lemma staging_success_digest {W : Type} `{!Constants} `{!Host W} `{!S3API W}
    (s : State W) (checksum : string) :
  outcome (uploadServicePayload s) = Returned (checksum, true) ->
  exists b, (ReadFile PayloadPath (world s)).1 = inl b /\
            checksum = hex.EncodeToString (sha256.Sum256 b) /\
            recv (final (uploadServicePayload s)) = staged_recv (recv s) b.
Proof.
  destruct (ReadFile PayloadPath (world s)) as [[b|err] w1] eqn:Hread.
  - destruct (staging_records s b w1 Hread) as [Hrecv [ok Hok]].
    rewrite Hok. intros Hout. injection Hout as <- ->. eauto.
  - rewrite (staging_unreadable s err w1 Hread). intros Hout. discriminate Hout.
Qed.

(** Artifact staging ends with the removal of the payload. *)
Lemma staging_last_rm {W : Type} `{!Constants} `{!Host W} `{!S3API W} (s : State W) :
  last (events (uploadServicePayload s)) = Some (EvRm PayloadPath).
Proof. staging_paths s; reflexivity. Qed.

(** Nothing in [createStack] belongs to artifact or secrets staging. *)
Lemma createStack_events {W : Type} `{!Constants} `{!Host W} `{!S3API W}
    `{!TemplateCodec} `{!Collaborators W} (s : State W) :
  forallb (fun e => negb (staging_only e)) (events (createStack s)) = true.
Proof.
  assert (Hs : forallb (fun e => negb (staging_only e)) (events (createTemplate s)) = true).
  { generalize (createTemplate_events_only s). apply forallb_weaken.
    intros [] He; try reflexivity; discriminate He. }
  stack_paths s; rewrite ?forallb_app, ?Hs; reflexivity.
Qed.

(** When [createStack] dispatches, the dispatch is its last step. *)
Lemma createStack_dispatch_last {W : Type} `{!Constants} `{!Host W} `{!S3API W}
    `{!TemplateCodec} `{!Collaborators W} (s : State W) (p : CfnApiInput.t) :
  In (EvCfnAPI p) (events (createStack s)) ->
  last (events (createStack s)) = Some (EvCfnAPI p).
Proof.
  assert (Hno : ~ In (EvCfnAPI p) (events (createTemplate s))).
  { apply assembly_has_no. reflexivity. }
  stack_paths s; intros Hin; try contradiction;
    (apply in_app_or in Hin as [Hin|Hin]; [contradiction|]).
  - repeat (destruct Hin as [Hin|Hin]; [discriminate Hin|]). destruct Hin.
  - repeat (destruct Hin as [Hin|Hin]; [discriminate Hin|]). destruct Hin.
  - do 3 (destruct Hin as [Hin|Hin]; [discriminate Hin|]).
    destruct Hin as [Hin|[]]. injection Hin as <-.
    apply (last_app_cons _ [_; _; _]).
Qed.

(** X17. When the secrets stage fails, the pipeline stops there: the result is
    false, the region state is unchanged, and the run is the run of
    artifact staging followed by the one call of [uploadSecrets], which
    received the digest of the payload; no template is assembled, written,
    uploaded or dispatched. *)
Theorem secrets_failure_stops {W Rest : Type} `{!Constants} `{!Host W} `{!S3API W}
    `{!TemplateCodec} `{!Collaborators W}
    (regionState : provision_state.Region Rest) (s : State W) (checksum : string) :
  let staging := uploadServicePayload s in
  outcome staging = Returned (checksum, true) ->
  (uploadSecrets checksum (recv (final staging)) (world (final staging))).1.1 = false ->
  let run := createUpdateStackForRegion regionState s in
  run = MakeRun (Returned (false, regionState)) (after_secrets staging checksum)
          (events staging ++ [EvUploadSecrets checksum]) /\
  List.filter after_staging (events run) = [EvUploadSecrets checksum] /\
  exists b, (ReadFile PayloadPath (world s)).1 = inl b /\
            checksum = hex.EncodeToString (sha256.Sum256 b).
Proof.
  intros staging Hout Hsecrets run. subst staging run.
  rewrite createUpdateStackForRegion_run. cbv zeta. rewrite Hout, Hsecrets.
  split; [reflexivity|]. cbn [events]. split.
  - rewrite List.filter_app, (filter_none _ _ (staging_events s)). reflexivity.
  - destruct (staging_success_digest s checksum Hout) as (b & Hb & Hc & _). eauto.
Qed.

Lemma secrets_failure_stops_witness :
  let b := bytes_of_string "abc" in
  let s := MakeState Examples.svc (Examples.with_payload b) in
  let regionState := provision_state.MakeRegion "stack-0" tt in
  let run :=
    createUpdateStackForRegion (Collaborators0 := Examples.collaborators false true true)
      regionState s in
  outcome run = Returned (false, regionState) /\
  List.filter after_staging (events run) =
    [EvUploadSecrets (hex.EncodeToString (sha256.Sum256 b))].
Proof.
  intros b s regionState run.
  destruct (secrets_failure_stops
              (Collaborators0 := Examples.collaborators false true true)
              regionState s (hex.EncodeToString (sha256.Sum256 b)))
    as (Hrun & Hev & _); [reflexivity|reflexivity|].
  split; [|exact Hev]. subst run. rewrite Hrun. reflexivity.
Defined.

(** X18. A dispatch seen in a run of the pipeline is its last step, and comes
    after both earlier stages succeeded: the payload was read, staged under
    its digest and removed from disk, then [uploadSecrets] was called once
    with that digest and succeeded, and only then [createStack] ran, in the
    state that the secrets stage left. *)
Theorem dispatch_after_secrets {W Rest : Type} `{!Constants} `{!Host W} `{!S3API W}
    `{!TemplateCodec} `{!Collaborators W}
    (regionState : provision_state.Region Rest) (s : State W) (p : CfnApiInput.t) :
  let staging := uploadServicePayload s in
  let run := createUpdateStackForRegion regionState s in
  In (EvCfnAPI p) (events run) ->
  exists b checksum,
    (ReadFile PayloadPath (world s)).1 = inl b /\
    checksum = hex.EncodeToString (sha256.Sum256 b) /\
    outcome staging = Returned (checksum, true) /\
    last (events staging) = Some (EvRm PayloadPath) /\
    (uploadSecrets checksum (recv (final staging)) (world (final staging))).1.1 = true /\
    events run =
      events staging ++ EvUploadSecrets checksum ::
      events (createStack (after_secrets staging checksum)) /\
    List.filter is_secrets (events run) = [EvUploadSecrets checksum] /\
    last (events run) = Some (EvCfnAPI p).
Proof.
  intros staging run. subst staging run.
  rewrite createUpdateStackForRegion_run. cbv zeta.
  pose proof (staging_events s) as Hstaging.
  assert (Hno : ~ In (EvCfnAPI p) (events (uploadServicePayload s))).
  { intros Hin. rewrite forallb_forall in Hstaging. specialize (Hstaging _ Hin).
    discriminate Hstaging. }
  assert (Hfs : List.filter is_secrets (events (uploadServicePayload s)) = []).
  { apply filter_none. revert Hstaging. apply forallb_weaken.
    intros [] He; try reflexivity; discriminate He. }
  destruct (staging_returns s) as (checksum & ok & Hout). rewrite Hout.
  destruct ok; [|intros Hin; contradiction].
  destruct (staging_success_digest s checksum Hout) as (b & Hb & Hc & _).
  destruct (uploadSecrets checksum _ _).1.1 eqn:Hsecrets.
  - pose proof (createStack_events (after_secrets (uploadServicePayload s) checksum))
      as Hstack.
    pose proof (createStack_dispatch_last
                  (after_secrets (uploadServicePayload s) checksum) p) as Hlast.
    assert (Hfk : List.filter is_secrets
                    (events (createStack (after_secrets (uploadServicePayload s) checksum)))
                  = []).
    { apply filter_none. revert Hstack. apply forallb_weaken.
      intros [] He; try reflexivity; discriminate He. }
    assert (Hev : In (EvCfnAPI p)
                    (events (uploadServicePayload s) ++ EvUploadSecrets checksum ::
                     events (createStack (after_secrets (uploadServicePayload s) checksum))) ->
                  In (EvCfnAPI p)
                    (events (createStack (after_secrets (uploadServicePayload s) checksum)))).
    { intros Hin. apply in_app_or in Hin as [Hin|Hin]; [contradiction|].
      destruct Hin as [Hin|Hin]; [discriminate Hin|exact Hin]. }
    destruct (outcome (createStack _)) as [[stackId []]|msg]; cbn [events];
      intros Hin; apply Hev in Hin; specialize (Hlast Hin);
      exists b, checksum; (do 6 (split; [first [assumption|reflexivity|apply staging_last_rm]|]));
      (split; [rewrite List.filter_app; cbn [List.filter is_secrets]; rewrite Hfs, Hfk;
               reflexivity|]);
      rewrite last_app; cbn [last]; rewrite last_cons, Hlast; reflexivity.
  - cbn [events]. intros Hin. apply in_app_or in Hin as [Hin|Hin]; [contradiction|].
    destruct Hin as [Hin|[]]. discriminate Hin.
Qed.

Lemma dispatch_after_secrets_witness :
  let b := bytes_of_string "abc" in
  let s := MakeState Examples.svc (Examples.with_payload b) in
  let regionState := provision_state.MakeRegion "stack-0" tt in
  let p := dispatch_params Examples.svc (bytes_of_string "svc (powered by porter v0)") in
  let run :=
    createUpdateStackForRegion (Collaborators0 := Examples.collaborators true true true)
      regionState s in
  last (events run) = Some (EvCfnAPI p) /\
  exists checksum, List.filter is_secrets (events run) = [EvUploadSecrets checksum].
Proof.
  intros b s regionState p run.
  destruct (dispatch_after_secrets
              (Collaborators0 := Examples.collaborators true true true) regionState s p)
    as (b' & checksum & _ & _ & _ & _ & _ & _ & Hsecrets & Hlast).
  - rewrite createUpdateStackForRegion_run. cbv zeta.
    assert (Hstaged : outcome (uploadServicePayload s) =
                      Returned (hex.EncodeToString (sha256.Sum256 b), true)) by reflexivity.
    rewrite Hstaged.
    set (secrets := uploadSecrets _ _ _).
    assert (Hsec : secrets.1.1 = true) by reflexivity. rewrite Hsec.
    set (stack := createStack _).
    assert (Hin : In (EvCfnAPI p) (events stack)).
    { subst stack. rewrite createStack_run. cbv zeta.
      set (tmpl := createTemplate _).
      assert (Htmpl : outcome tmpl =
                      Returned (bytes_of_string "svc (powered by porter v0)", true))
        by reflexivity.
      rewrite Htmpl.
      set (written := WriteFile _ _ _).
      assert (Hwritten : written.1 = None) by reflexivity. rewrite Hwritten.
      set (uploaded := Upload _ _).
      assert (Huploaded : uploaded.1 = None) by reflexivity. rewrite Huploaded.
      cbn [events]. apply in_or_app. right. do 3 right. left. reflexivity. }
    destruct (outcome stack) as [[stackId []]|msg]; cbn [events];
      apply in_or_app; right; right; exact Hin.
  - split; [exact Hlast|]. exists checksum. exact Hsecrets.
Defined.

(** ** The receiver across [createStack] *)

(** Without a mutation step, [createTemplate] failed and left the
    receiver as it was. *)
Lemma createTemplate_unmutated {W : Type} `{!Constants} `{!Host W} `{!TemplateCodec}
    `{!Collaborators W} (s : State W) :
  List.filter is_mutation (events (createTemplate s)) = [] ->
  recv (final (createTemplate s)) = recv s /\
  succeeded (outcome (createTemplate s)) = false.
Proof.
  assembly_paths s; intros Hf; try discriminate Hf; split; reflexivity.
Qed.

(** X19. [createStack] itself never writes the receiver: the receiver it leaves
    is the one that template assembly left, whatever the mirror, the upload
    and the dispatch do; and a run in which no mutation step was reached
    fails with the receiver untouched. *)
Theorem createStack_receiver_frame {W : Type} `{!Constants} `{!Host W} `{!S3API W}
    `{!TemplateCodec} `{!Collaborators W} (s : State W) :
  recv (final (createStack s)) = recv (final (createTemplate s)) /\
  (List.filter is_mutation (events (createTemplate s)) = [] ->
   recv (final (createStack s)) = recv s /\
   outcome (createStack s) = Returned ("", false)).
Proof.
  pose proof (createTemplate_unmutated s) as Hun.
  stack_paths s; (split; [reflexivity|]); intros Hf;
    destruct (Hun Hf) as [Hr Hs]; rewrite Hout in Hs; try discriminate Hs.
  split; [exact Hr|reflexivity].
Qed.

(** ** The text of a probe error *)

Lemma Contains_eq (s sub : string) :
  Contains s sub =
    HasPrefix s sub || match s with EmptyString => false | String _ s' => Contains s' sub end.
Proof. destruct s; reflexivity. Qed.

Lemma HasPrefix_spec (s sub : string) :
  HasPrefix s sub = true <-> exists t, s = sub +:+ t.
Proof.
  revert s. induction sub as [|c sub IH]; intros s.
  - destruct s; cbn; split; eauto.
  - destruct s as [|d s]; cbn [HasPrefix].
    + split; [discriminate|]. intros [t Ht]. rewrite append_cons in Ht. discriminate Ht.
    + destruct (Ascii.eqb_spec c d) as [->|Hne].
      * rewrite IH. split; intros [t Ht]; exists t.
        -- rewrite append_cons. now f_equal.
        -- rewrite append_cons in Ht. now injection Ht.
      * split; [discriminate|]. intros [t Ht]. rewrite append_cons in Ht.
        injection Ht as Hc _. congruence.
Qed.

(** [strings.Contains] holds exactly of the texts that can be split
    around the substring. *)
Lemma Contains_spec (s sub : string) :
  Contains s sub = true <-> exists a c, s = a +:+ sub +:+ c.
Proof.
  induction s as [|d s IH]; rewrite Contains_eq.
  - rewrite orb_false_r, HasPrefix_spec. split.
    + intros [t Ht]. exists "", t. exact Ht.
    + intros (a & c & Hs). destruct a as [|x a]; [eauto|].
      rewrite append_cons in Hs. discriminate Hs.
  - rewrite orb_true_iff, HasPrefix_spec, IH. split.
    + intros [[t Ht]|(a & c & Hs)].
      * exists "", t. exact Ht.
      * exists (String d a), c. rewrite append_cons. now f_equal.
    + intros (a & c & Hs). destruct a as [|x a].
      * left. eauto.
      * right. rewrite append_cons in Hs. injection Hs as _ Hs. eauto.
Qed.

(** X20. The probe error is judged by its text alone. The payload is uploaded
    after a failed probe exactly when ["404"] occurs somewhere in the error
    text, and the permissions hint is logged exactly when ["403"] occurs in
    it and ["404"] does not. *)
Theorem probe_error_text_decides {W : Type} `{!Constants} `{!Host W} `{!S3API W}
    (s : State W) (b : bytes) (w1 : W) (err : error) (w2 : W) :
  ReadFile PayloadPath (world s) = (inl b, w1) ->
  HeadObject (probe_input (recv s) b) w1 = (inr err, w2) ->
  let run := uploadServicePayload s in
  (In (EvUpload (payload_upload_input (recv s) b)) (events run) <->
   exists a c, err = a +:+ "404" +:+ c) /\
  (In permissions_hint (events run) <->
   (exists a c, err = a +:+ "403" +:+ c) /\ ~ exists a c, err = a +:+ "404" +:+ c).
Proof.
  intros Hread Hhead. cbv zeta. rewrite <- !Contains_spec.
  destruct (Contains err "404") eqn:E404.
  - destruct (Upload (payload_upload_input (recv s) b) w2) as [uerr w3] eqn:Hup.
    assert (Hc : classify (inr err) = ProceedToUpload) by (unfold classify; now rewrite E404).
    rewrite (staging_upload s b w1 (inr err) w2 uerr w3 Hread Hhead Hc Hup).
    cbn [events]. split.
    + split; [reflexivity|]. intros _. cbn. auto.
    + split; [|intros [_ Hn]; now destruct Hn].
      unfold permissions_hint. destruct uerr; cbn; intros Hin;
        repeat (destruct Hin as [Hin|Hin]; [discriminate Hin|]); destruct Hin.
  - assert (Hc : classify (inr err) = ProbeFailed err) by (unfold classify; now rewrite E404).
    rewrite (staging_probe_failed s b w1 (inr err) w2 err Hread Hhead Hc).
    cbn [events]. split.
    + split; [|discriminate].
      destruct (Contains err "403"); cbn; intros Hin;
        repeat (destruct Hin as [Hin|Hin]; [discriminate Hin|]); destruct Hin.
    + unfold permissions_hint. destruct (Contains err "403"); cbn; split.
      * intros _. split; [reflexivity|discriminate].
      * auto 6.
      * intros Hin. repeat (destruct Hin as [Hin|Hin]; [discriminate Hin|]). destruct Hin.
      * intros [Hin _]. discriminate Hin.
Qed.

Lemma probe_error_text_decides_witness :
  let b := bytes_of_string "abc" in
  let err := "Forbidden: Forbidden, status code: 403, request id: 4042A1B9C3D5E6F7" in
  let w := Store.MakeWorld {[ PayloadPath := b ]} ∅ (Some err) None None in
  In (EvUpload (payload_upload_input Examples.svc b))
    (events (uploadServicePayload (MakeState Examples.svc w))).
Proof.
  intros b err w.
  destruct (probe_error_text_decides (MakeState Examples.svc w) b w err w) as [[_ Hup] _];
    [reflexivity|reflexivity|].
  apply Hup.
  exists "Forbidden: Forbidden, status code: 403, request id: ", "2A1B9C3D5E6F7".
  reflexivity.
Defined.
